(** * Element builders of the card view library (lib/Elements/index.js)

    A shallow embedding of the [Elements] class: the JavaScript values the
    builders read and return, destructuring with defaults, the mention
    rewrite done with a global regular expression, and the eight builder
    methods.  The theorems at the end relate the builders to the prose
    specification of the library. *)

From Stdlib Require Import String Ascii List Bool Arith Lia.
From Stdlib Require Import Floats.PrimFloat.
Import ListNotations.

Open Scope string_scope.

Set Warnings "-register-all".

(** ** JavaScript values *)

(** The data the builders handle: primitives, arrays and plain objects.
    A number is an IEEE double.  An object is the list of its own
    properties in insertion order; a property read takes the first binding
    of the key.  Function values, getters and exotic objects are outside
    the model.  A string is a sequence of code units; the regular
    expression of the source names only ASCII characters and treats every
    other code unit alike, so one [ascii] stands for one code unit. *)
Inductive value : Type :=
| VUndefined : value
| VNull : value
| VBool (b : bool) : value
| VNum (n : float) : value
| VStr (s : string) : value
| VArr (items : list value) : value
| VObj (props : list (string * value)) : value.

Definition object := list (string * value).

(** The only exception the builders can raise. *)
Inductive error : Type :=
| TypeError : error.

Inductive result (A : Type) : Type :=
| Ok (a : A) : result A
| Throw (e : error) : result A.

Arguments Ok {A} a.
Arguments Throw {A} e.

Definition bind {A B : Type} (r : result A) (k : A -> result B) : result B :=
  match r with
  | Ok a => k a
  | Throw e => Throw e
  end.

Notation "x <- r ;; k" := (bind r (fun x => k))
  (at level 61, r at next level, right associativity).

(** [ToBoolean]. *)
Definition truthy (v : value) : bool :=
  match v with
  | VUndefined | VNull => false
  | VBool b => b
  | VNum n => negb (PrimFloat.is_zero n || PrimFloat.is_nan n)
  | VStr s => negb (s =? "")
  | VArr _ | VObj _ => true
  end.

(** The [typeof] operator. *)
Definition typeof (v : value) : string :=
  match v with
  | VUndefined => "undefined"
  | VNull => "object"
  | VBool _ => "boolean"
  | VNum _ => "number"
  | VStr _ => "string"
  | VArr _ | VObj _ => "object"
  end.

Fixpoint lookup (k : string) (o : object) : option value :=
  match o with
  | [] => None
  | (k', v) :: o' => if k' =? k then Some v else lookup k o'
  end.

(** [o.k] for a value [o] that is neither [undefined] nor [null]: an own
    property of an object, [undefined] for a missing key.  None of the
    keys the builders read is defined on the wrappers of primitives or on
    arrays, so those read as [undefined] too. *)
Definition get (o : value) (k : string) : value :=
  match o with
  | VObj ps =>
      match lookup k ps with
      | Some v => v
      | None => VUndefined
      end
  | _ => VUndefined
  end.

(** Reading a property of [undefined] or [null], and destructuring one of
    them, raises a [TypeError]. *)
Definition coercible (v : value) : result value :=
  match v with
  | VUndefined | VNull => Throw TypeError
  | _ => Ok v
  end.

(** A destructuring default [k = d]: the default replaces a value that is
    [undefined], which is also what a missing key reads as. *)
Definition default (v d : value) : value :=
  match v with
  | VUndefined => d
  | _ => v
  end.

(** ** Constants of the class and of its base *)

Module Base.

(** Modelled from the spec: the horizontal alignment registry [HAlign] is
    declared by the base class in lib/Base, which is not part of the
    sources at hand; the builders read only [HAlign.left], which the
    specification gives as the literal "left". *)
Definition HAlign : value :=
  VObj [("left", VStr "left")].

End Base.

(** The enumerations of the class, frozen objects that are only read. *)
Definition TextColors : value :=
  VObj [("default", VStr "default"); ("black", VStr "dark");
        ("grey", VStr "light"); ("blue", VStr "accent");
        ("green", VStr "good"); ("yellow", VStr "warning");
        ("red", VStr "attention")].

Definition TextFontTypes : value :=
  VObj [("default", VStr "default"); ("monospace", VStr "monospace")].

Definition TextSizes : value :=
  VObj [("default", VStr "default"); ("small", VStr "small");
        ("medium", VStr "medium"); ("large", VStr "large");
        ("xl", VStr "extraLarge")].

Definition TextWeights : value :=
  VObj [("default", VStr "default"); ("lighter", VStr "lighter");
        ("bolder", VStr "bolder")].

Definition TextStyles : value :=
  VObj [("default", VStr "default"); ("heading", VStr "heading")].

Definition ImageSizes : value :=
  VObj [("small", VStr "small"); ("medium", VStr "medium");
        ("large", VStr "large"); ("stretch", VStr "stretch");
        ("auto", VStr "auto")].

Definition ImageStyles : value :=
  VObj [("default", VStr "default"); ("rounded", VStr "person")].

(** ** Regular expressions, as far as the source uses them

    The one pattern of the source is a sequence of single characters and
    of greedy [+] repetitions of a character class, with one capturing
    group.  [exec] is a backtracking matcher for such sequences, anchored
    at the head of its input: a repetition first tries to take one more
    character and falls back to the rest of the pattern when that
    fails. *)

Inductive class : Type :=
| Lit (c : ascii) : class
| NoneOf (cs : list ascii) : class.

Definition accepts (a : class) (c : ascii) : bool :=
  match a with
  | Lit d => Ascii.eqb c d
  | NoneOf cs => negb (existsb (Ascii.eqb c) cs)
  end.

Inductive instr : Type :=
| One (a : class) : instr
| Plus (a : class) : instr
| GroupOpen : instr
| GroupClose : instr.

Definition regex := list instr.

(** What a match in progress has consumed, and the text of group 1. *)
Record mstate : Type := MState {
  consumed : nat;
  capture : string;
  capturing : bool
}.

Definition start : mstate := MState 0 "" false.

Definition take (c : ascii) (st : mstate) : mstate :=
  MState (S (consumed st))
         (if capturing st then capture st ++ String c "" else capture st)
         (capturing st).

Definition group_open (st : mstate) : mstate :=
  MState (consumed st) "" true.

Definition group_close (st : mstate) : mstate :=
  MState (consumed st) (capture st) false.

Fixpoint plus_loop (a : class) (k : string -> mstate -> option mstate)
    (s : string) (st : mstate) : option mstate :=
  match s with
  | String c s' =>
      if accepts a c then
        match plus_loop a k s' (take c st) with
        | Some r => Some r
        | None => k s' (take c st)
        end
      else None
  | EmptyString => None
  end.

Fixpoint exec (p : regex) : string -> mstate -> option mstate :=
  match p with
  | [] => fun _ st => Some st
  | One a :: p' =>
      fun s st =>
        match s with
        | String c s' => if accepts a c then exec p' s' (take c st) else None
        | EmptyString => None
        end
  | Plus a :: p' => plus_loop a (exec p')
  | GroupOpen :: p' => fun s st => exec p' s (group_open st)
  | GroupClose :: p' => fun s st => exec p' s (group_close st)
  end.

(** A replacement template: literal text and references to group 1. *)
Inductive piece : Type :=
| Text (s : string) : piece
| Group1 : piece.

Definition template := list piece.

Fixpoint expand (t : template) (cap : string) : string :=
  match t with
  | [] => ""
  | Text s :: t' => s ++ expand t' cap
  | Group1 :: t' => cap ++ expand t' cap
  end.

(** [String.prototype.replace] with a global pattern: matches are looked
    for from left to right, each one starts where the previous one ended
    (one code unit later after an empty match), the text between matches
    is kept.  [skip] counts the code units of the current match that are
    still to be passed over. *)
Fixpoint replace_from (p : regex) (t : template) (s : string) (skip : nat)
    : string :=
  match skip with
  | S n =>
      match s with
      | String _ s' => replace_from p t s' n
      | EmptyString => ""
      end
  | 0 =>
      match exec p s start with
      | Some m =>
          expand t (capture m) ++
          match s with
          | String c s' =>
              match consumed m with
              | S n => replace_from p t s' n
              | 0 => String c (replace_from p t s' 0)
              end
          | EmptyString => ""
          end
      | None =>
          match s with
          | String c s' => String c (replace_from p t s' 0)
          | EmptyString => ""
          end
      end
  end.

Definition replace (p : regex) (t : template) (s : string) : string :=
  replace_from p t s 0.

(** The pattern [/\@\<+([^\>[]+)>+/g] of lines 120 and 315. *)
Definition mention_pattern : regex :=
  [One (Lit "@"); Plus (Lit "<");
   GroupOpen; Plus (NoneOf [">"; "["]%char); GroupClose;
   Plus (Lit ">")].

(** The replacement ["<at>$1</at>"]. *)
Definition mention_template : template :=
  [Text "<at>"; Group1; Text "</at>"].

(** ** The builders *)

Section Elements.

(** [EmojiService.toUnicodeVersion], of lib/utils/EmojiService: a pure
    conversion of strings, taken as given. *)
Variable toUnicodeVersion : string -> string.

Definition textBlock (arg : value) : result value :=
  p <- coercible arg ;;
  let text := get p "text" in
  let color := get p "color" in
  let fontType := get p "fontType" in
  let horizontalAlignment :=
    default (get p "horizontalAlignment") (get Base.HAlign "left") in
  let isSubtle := default (get p "isSubtle") (VBool false) in
  let maxLines := get p "maxLines" in
  let size := get p "size" in
  let weight := get p "weight" in
  let wrap := default (get p "wrap") (VBool true) in
  let style := default (get p "style") (get TextStyles "default") in
  let height := get p "height" in
  let separator := default (get p "separator") (VBool false) in
  let spacing := get p "spacing" in
  let id := get p "id" in
  let isVisible := default (get p "isVisible") (VBool true) in
  let preparedText :=
    if truthy text && (typeof text =? "string") then
      match text with
      | VStr s =>
          VStr (toUnicodeVersion (replace mention_pattern mention_template s))
      | _ => text
      end
    else text in
  Ok (VObj [("type", VStr "TextBlock");
            ("text", preparedText);
            ("color", color);
            ("fontType", fontType);
            ("horizontalAlignment", horizontalAlignment);
            ("isSubtle", isSubtle);
            ("maxLines", maxLines);
            ("size", size);
            ("weight", weight);
            ("wrap", wrap);
            ("style", style);
            ("height", height);
            ("separator", separator);
            ("spacing", spacing);
            ("id", id);
            ("isVisible", isVisible)]).

Definition image (arg : value) : result value :=
  p <- coercible arg ;;
  let url := get p "url" in
  let altText := default (get p "altText") (VStr "image") in
  let backgroundColor := get p "backgroundColor" in
  let height := get p "height" in
  let horizontalAlignment :=
    default (get p "horizontalAlignment") (get Base.HAlign "left") in
  let selectAction := get p "selectAction" in
  let size := get p "size" in
  let style := get p "style" in
  let width := get p "width" in
  let separator := default (get p "separator") (VBool false) in
  let spacing := get p "spacing" in
  let id := get p "id" in
  let isVisible := default (get p "isVisible") (VBool true) in
  let allowZoom := default (get p "allowZoom") (VBool false) in
  Ok (VObj [("type", VStr "Image");
            ("url", url);
            ("altText", altText);
            ("backgroundColor", backgroundColor);
            ("height", height);
            ("horizontalAlignment", horizontalAlignment);
            ("selectAction", selectAction);
            ("size", size);
            ("style", style);
            ("width", width);
            ("separator", separator);
            ("spacing", spacing);
            ("id", id);
            ("isVisible", isVisible);
            ("msTeams",
             if truthy allowZoom then VObj [("allowExpand", VBool true)]
             else VObj [])]).

Definition media (arg : value) : result value :=
  p <- coercible arg ;;
  let sources := get p "sources" in
  let poster := get p "poster" in
  let altText := get p "altText" in
  let height := get p "height" in
  let separator := default (get p "separator") (VBool false) in
  let spacing := get p "spacing" in
  let id := get p "id" in
  let isVisible := default (get p "isVisible") (VBool true) in
  Ok (VObj [("type", VStr "Media");
            ("sources", sources);
            ("poster", poster);
            ("altText", altText);
            ("height", height);
            ("separator", separator);
            ("spacing", spacing);
            ("id", id);
            ("isVisible", isVisible)]).

Definition mediaSource (arg : value) : result value :=
  p <- coercible arg ;;
  let mimeType := get p "mimeType" in
  let url := get p "url" in
  Ok (VObj [("mimeType", mimeType); ("url", url)]).

Definition richTextBlock (arg : value) : result value :=
  p <- coercible arg ;;
  let inlines := get p "inlines" in
  let horizontalAlignment :=
    default (get p "horizontalAlignment") (get Base.HAlign "left") in
  let height := get p "height" in
  let separator := default (get p "separator") (VBool false) in
  let spacing := get p "spacing" in
  let id := get p "id" in
  let isVisible := default (get p "isVisible") (VBool true) in
  Ok (VObj [("type", VStr "RichTextBlock");
            ("inlines", inlines);
            ("horizontalAlignment", horizontalAlignment);
            ("height", height);
            ("separator", separator);
            ("spacing", spacing);
            ("id", id);
            ("isVisible", isVisible)]).

Definition textRun (arg : value) : result value :=
  p <- coercible arg ;;
  let text := get p "text" in
  let color := get p "color" in
  let fontType := get p "fontType" in
  let highlight := default (get p "highlight") (VBool false) in
  let isSubtle := default (get p "isSubtle") (VBool false) in
  let italic := default (get p "italic") (VBool false) in
  let selectAction := get p "selectAction" in
  let strikethrough := default (get p "strikethrough") (VBool false) in
  let underline := default (get p "underline") (VBool false) in
  let size := get p "size" in
  let weight := get p "weight" in
  let preparedText :=
    if truthy text && (typeof text =? "string") then
      match text with
      | VStr s =>
          VStr (toUnicodeVersion (replace mention_pattern mention_template s))
      | _ => text
      end
    else text in
  Ok (VObj [("type", VStr "TextRun");
            ("text", preparedText);
            ("color", color);
            ("fontType", fontType);
            ("highlight", highlight);
            ("isSubtle", isSubtle);
            ("italic", italic);
            ("selectAction", selectAction);
            ("strikethrough", strikethrough);
            ("underline", underline);
            ("size", size);
            ("weight", weight)]).

Definition userIcon (user : value) : result value :=
  u <- coercible user ;;
  let id := get u "id" in
  let name := get u "name" in
  let email := get u "email" in
  Ok (VObj [("type", VStr "Component");
            ("name", VStr "graph.microsoft.com/user");
            ("view", VStr "compact");
            ("properties",
             VObj [("id", id);
                   ("displayName", name);
                   ("userPrincipalName", email)])]).

(** [Array.prototype.map] with a callback that may raise. *)
Fixpoint array_map (f : value -> result value) (items : list value)
    : result (list value) :=
  match items with
  | [] => Ok []
  | x :: items' =>
      y <- f x ;;
      ys <- array_map f items' ;;
      Ok (y :: ys)
  end.

(** [users.map] is a method only when [users] is an array; on anything
    else the call raises. *)
Definition userIconSet (users : value) : result value :=
  match users with
  | VArr items =>
      mapped <- array_map
                  (fun user =>
                     u <- coercible user ;;
                     Ok (VObj [("id", get u "id");
                               ("displayName", get u "name");
                               ("userPrincipalName", get u "email")]))
                  items ;;
      Ok (VObj [("type", VStr "Component");
                ("name", VStr "graph.microsoft.com/users");
                ("view", VStr "compact");
                ("properties", VObj [("users", VArr mapped)])])
  | _ => Throw TypeError
  end.

End Elements.

(** ** Reading results *)

(** The value a builder's result holds under key [k]; [None] when the
    builder raised. *)
Definition field (k : string) (r : result value) : option value :=
  match r with
  | Ok o => Some (get o k)
  | Throw _ => None
  end.

(** The own property [k] of a returned object; [None] when the key is not
    among its properties or the builder raised. *)
Definition own (k : string) (r : result value) : option value :=
  match r with
  | Ok (VObj ps) => lookup k ps
  | _ => None
  end.

(** ** Shapes of input text *)

Fixpoint repeat_char (c : ascii) (n : nat) : string :=
  match n with
  | 0 => ""
  | S n' => String c (repeat_char c n')
  end.

Fixpoint all_accepted (a : class) (s : string) : bool :=
  match s with
  | EmptyString => true
  | String c s' => accepts a c && all_accepted a s'
  end.

Definition starts_with (c : ascii) (s : string) : bool :=
  match s with
  | String d _ => Ascii.eqb d c
  | EmptyString => false
  end.

(** Some "@<" occurs in [s]. *)
Fixpoint has_marker (s : string) : bool :=
  match s with
  | EmptyString => false
  | String c s' => (Ascii.eqb c "@" && starts_with "<" s') || has_marker s'
  end.

(** A mention marker inside a text, with the text that follows it up to
    the next marker: "@", [S opening] times "<", the inner text,
    [S closing] times ">", then [after]. *)
Record marker : Type := Marker {
  opening : nat;
  inner : string;
  closing : nat;
  after : string
}.

Definition marker_source (m : marker) : string :=
  "@" ++ repeat_char "<" (S (opening m)) ++ inner m ++
  repeat_char ">" (S (closing m)) ++ after m.

Definition marker_target (m : marker) : string :=
  "<at>" ++ inner m ++ "</at>" ++ after m.

(** The inner text is not empty, has neither ">" nor "[" and does not
    begin with "<"; the text after the marker does not begin with ">"
    and has no "@<" of its own. *)
Definition marker_ok (m : marker) : bool :=
  negb (inner m =? "") &&
  all_accepted (NoneOf [">"; "["]%char) (inner m) &&
  negb (starts_with "<" (inner m)) &&
  negb (starts_with ">" (after m)) &&
  negb (has_marker (after m)).

Fixpoint sources (ms : list marker) : string :=
  match ms with
  | [] => ""
  | m :: ms' => marker_source m ++ sources ms'
  end.

Fixpoint targets (ms : list marker) : string :=
  match ms with
  | [] => ""
  | m :: ms' => marker_target m ++ targets ms'
  end.

(** The mention pattern as the specification words it, to compare with
    [mention_pattern]: "@<", one or more characters other than ">" and
    "[" (the captured inner text), one or more ">". *)
Definition spec_mention_pattern : regex :=
  [One (Lit "@"); One (Lit "<");
   GroupOpen; Plus (NoneOf [">"; "["]%char); GroupClose;
   Plus (Lit ">")].

Definition starts_with2 (c d : ascii) (s : string) : bool :=
  match s with
  | String a s' => Ascii.eqb a c && starts_with d s'
  | EmptyString => false
  end.

(** Some "@<<" occurs in [s]. *)
Fixpoint has_double_open (s : string) : bool :=
  match s with
  | EmptyString => false
  | String c s' =>
      (Ascii.eqb c "@" && starts_with2 "<" "<" s') || has_double_open s'
  end.

(** Number of positions of [s] at which [needle] begins. *)
Fixpoint occurrences (needle s : string) : nat :=
  (if prefix needle s then 1 else 0) +
  match s with
  | EmptyString => 0
  | String _ s' => occurrences needle s'
  end.

(** ** Runs of the matcher *)

(** The state after the characters of [s] have been taken one by one. *)
Fixpoint take_all (s : string) (st : mstate) : mstate :=
  match s with
  | EmptyString => st
  | String c s' => take_all s' (take c st)
  end.

(** The repetition of [a] cannot go on at the head of [s]. *)
Definition blocked (a : class) (s : string) : bool :=
  match s with
  | EmptyString => true
  | String c _ => negb (accepts a c)
  end.

(** ** Properties of results *)

(** The result of a builder, when there is one, is an object whose own
    [type] property is the string [t]. *)
Definition typed_as (t : string) (r : result value) : Prop :=
  match r with
  | Ok (VObj ps) => lookup "type" ps = Some (VStr t)
  | Ok _ => False
  | Throw _ => True
  end.

(** The field [k] of the result [r] follows the destructuring default [d]
    of the argument: [d] when the argument reads as [undefined] under
    [k], the argument's own value otherwise. *)
Definition defaulting (arg : value) (k : string) (d : value)
    (r : result value) : Prop :=
  (get arg k = VUndefined -> field k r = Some d) /\
  (get arg k <> VUndefined -> field k r = Some (get arg k)).

(** The renamed triple of one user record. *)
Definition renamed (user : object) : value :=
  VObj [("id", get (VObj user) "id");
        ("displayName", get (VObj user) "name");
        ("userPrincipalName", get (VObj user) "email")].

(** ** Further shapes and readings *)

(** The character [c] occurs in [s]. *)
Fixpoint has_char (c : ascii) (s : string) : bool :=
  match s with
  | EmptyString => false
  | String d s' => Ascii.eqb d c || has_char c s'
  end.

(** The names of the own properties of a returned object, in order. *)
Definition keys (r : result value) : list string :=
  match r with
  | Ok (VObj ps) => map fst ps
  | _ => []
  end.

(** The callback of [userIconSet] gives for a user what [userIcon] puts
    under [properties]. *)
Definition icon_properties (user : value) : result value :=
  match userIcon user with
  | Ok o => Ok (get o "properties")
  | Throw e => Throw e
  end.

(** Both text builders put [v] under [text]. *)
Definition text_is (conv : string -> string) (arg v : value) : Prop :=
  field "text" (textBlock conv arg) = Some v /\
  field "text" (textRun conv arg) = Some v.

(** Neither the inner text nor the text behind the marker holds "@". *)
Definition marker_at_free (m : marker) : bool :=
  negb (has_char "@" (inner m)) && negb (has_char "@" (after m)).

(** The values that cannot be destructured. *)
Definition missing (v : value) : Prop :=
  v = VUndefined \/ v = VNull.

(** * Lemmas *)

(** ** Strings *)

Lemma append_nil_r (s : string) : s ++ "" = s.
Proof. induction s as [|c s IH]; simpl; [reflexivity | now rewrite IH]. Qed.

Lemma append_assoc (s t u : string) : (s ++ t) ++ u = s ++ t ++ u.
Proof. induction s as [|c s IH]; simpl; [reflexivity | now rewrite IH]. Qed.

Lemma length_append (s t : string) :
  String.length (s ++ t) = String.length s + String.length t.
Proof. induction s as [|c s IH]; simpl; [reflexivity | now rewrite IH]. Qed.

Lemma length_repeat_char (c : ascii) (n : nat) :
  String.length (repeat_char c n) = n.
Proof. induction n as [|n IH]; simpl; [reflexivity | now rewrite IH]. Qed.

Lemma all_accepted_repeat (c : ascii) (n : nat) :
  all_accepted (Lit c) (repeat_char c n) = true.
Proof.
  induction n as [|n IH]; simpl; [reflexivity |].
  now rewrite Ascii.eqb_refl, IH.
Qed.

(** ** The matcher on runs of accepted characters *)

Lemma consumed_take_all (s : string) (st : mstate) :
  consumed (take_all s st) = consumed st + String.length s.
Proof.
  revert st; induction s as [|c s IH]; intros st; simpl.
  - lia.
  - rewrite IH. simpl. lia.
Qed.

Lemma capturing_take_all (s : string) (st : mstate) :
  capturing (take_all s st) = capturing st.
Proof.
  revert st; induction s as [|c s IH]; intros st; simpl;
    [reflexivity | now rewrite IH].
Qed.

Lemma capture_take_all (s : string) (st : mstate) :
  capture (take_all s st) =
  if capturing st then capture st ++ s else capture st.
Proof.
  revert st; induction s as [|c s IH]; intros st; simpl.
  - destruct (capturing st); [now rewrite append_nil_r | reflexivity].
  - rewrite IH. simpl. destruct (capturing st); [| reflexivity].
    now rewrite append_assoc.
Qed.

Lemma plus_loop_blocked a k s st :
  blocked a s = true -> plus_loop a k s st = None.
Proof.
  destruct s as [|c s]; simpl; [reflexivity |].
  intros H. apply negb_true_iff in H. now rewrite H.
Qed.

(** A greedy repetition takes the whole run it faces when the rest of the
    pattern then succeeds. *)
Lemma plus_loop_run a k run rest st r :
  run <> "" ->
  all_accepted a run = true ->
  blocked a rest = true ->
  k rest (take_all run st) = Some r ->
  plus_loop a k (run ++ rest) st = Some r.
Proof.
  revert st. induction run as [|c run IH]; intros st Hne Hall Hblk Hk.
  - now contradiction Hne.
  - simpl in Hall. apply andb_true_iff in Hall as [Hc Hall].
    simpl. rewrite Hc. destruct run as [|d run].
    + simpl. rewrite plus_loop_blocked by assumption. exact Hk.
    + rewrite (IH (take c st)); [reflexivity | discriminate | assumption
                                 | assumption | exact Hk].
Qed.

Lemma blocked_lit_not_start (c : ascii) (s : string) :
  starts_with c s = false -> blocked (Lit c) s = true.
Proof.
  destruct s as [|d s]; simpl; [reflexivity |].
  intros H. now rewrite H.
Qed.

Lemma blocked_lit_content (content rest : string) :
  content <> "" ->
  starts_with "<" content = false ->
  blocked (Lit "<") (content ++ rest) = true.
Proof.
  destruct content as [|d content]; [now intros [] |].
  simpl. intros _ H. now rewrite H.
Qed.

(** ** The mention pattern at the head of a marker *)

Lemma exec_marker (k : nat) (content : string) (m : nat) (post : string) :
  content <> "" ->
  all_accepted (NoneOf [">"; "["]%char) content = true ->
  starts_with "<" content = false ->
  starts_with ">" post = false ->
  exec mention_pattern
       ("@" ++ repeat_char "<" (S k) ++ content ++
        repeat_char ">" (S m) ++ post) start =
  Some (MState (S (S k + String.length content + S m)) content false).
Proof.
  intros Hne Hall Hlt Hgt.
  unfold mention_pattern. cbn [exec append accepts]. rewrite Ascii.eqb_refl.
  apply plus_loop_run.
  - discriminate.
  - apply all_accepted_repeat.
  - now apply blocked_lit_content.
  - apply plus_loop_run.
    + exact Hne.
    + exact Hall.
    + reflexivity.
    + apply plus_loop_run.
      * discriminate.
      * apply all_accepted_repeat.
      * now apply blocked_lit_not_start.
      * f_equal.
        set (s1 := take_all (repeat_char "<" (S k)) (take "@" start)).
        set (s2 := take_all content (group_open s1)).
        set (s3 := take_all (repeat_char ">" (S m)) (group_close s2)).
        assert (E1 : consumed s1 = S (S k)).
        { unfold s1. rewrite consumed_take_all, length_repeat_char.
          simpl. lia. }
        assert (E2 : consumed s2 = S (S k) + String.length content).
        { unfold s2. rewrite consumed_take_all. simpl. now rewrite E1. }
        assert (C2 : capture s2 = content).
        { unfold s2. rewrite capture_take_all. reflexivity. }
        assert (E3 : consumed s3 = S (S k + String.length content + S m)).
        { unfold s3. rewrite consumed_take_all, length_repeat_char.
          simpl. rewrite E2. lia. }
        assert (C3 : capture s3 = content).
        { unfold s3. rewrite capture_take_all. simpl. exact C2. }
        assert (F3 : capturing s3 = false).
        { unfold s3. rewrite capturing_take_all. reflexivity. }
        clearbody s3. destruct s3 as [n c b]. simpl in E3, C3, F3.
        rewrite E3, C3, F3. reflexivity.
Qed.

(** No match begins at a position that does not hold "@<". *)
Lemma exec_not_marker (c : ascii) (s : string) (st : mstate) :
  Ascii.eqb c "@" && starts_with "<" s = false ->
  exec mention_pattern (String c s) st = None.
Proof.
  intros H. unfold mention_pattern. cbn [exec accepts].
  destruct (Ascii.eqb c "@"); [| reflexivity].
  simpl in H. apply plus_loop_blocked. now apply blocked_lit_not_start.
Qed.

(** ** The global replacement *)

Lemma replace_from_skip p t (x y : string) :
  replace_from p t (x ++ y) (String.length x) = replace_from p t y 0.
Proof. induction x as [|c x IH]; simpl; [reflexivity | exact IH]. Qed.

(** Text without "@<" is kept as it is. *)
Lemma replace_plain (pre rest : string) :
  has_marker pre = false ->
  starts_with "<" rest = false ->
  replace_from mention_pattern mention_template (pre ++ rest) 0 =
  pre ++ replace_from mention_pattern mention_template rest 0.
Proof.
  intros Hpre Hrest. induction pre as [|c pre IH]; [reflexivity |].
  simpl in Hpre. apply orb_false_iff in Hpre as [Hc Hpre].
  change (String c pre ++ rest) with (String c (pre ++ rest)).
  cbn [replace_from]. rewrite exec_not_marker.
  - now rewrite IH.
  - destruct pre as [|d pre]; [| exact Hc].
    simpl. rewrite Hrest. apply andb_false_r.
Qed.

Lemma replace_from_match p t (c : ascii) (s : string) (m : mstate) (n : nat) :
  exec p (String c s) start = Some m ->
  consumed m = S n ->
  replace_from p t (String c s) 0 = expand t (capture m) ++ replace_from p t s n.
Proof.
  intros E L. cbn [replace_from]. now rewrite E, L.
Qed.

(** A marker is rewritten as a whole, and the replacement goes on right
    behind it. *)
Lemma replace_marker (k : nat) (content : string) (m : nat) (post : string) :
  content <> "" ->
  all_accepted (NoneOf [">"; "["]%char) content = true ->
  starts_with "<" content = false ->
  starts_with ">" post = false ->
  replace_from mention_pattern mention_template
    ("@" ++ repeat_char "<" (S k) ++ content ++
     repeat_char ">" (S m) ++ post) 0 =
  "<at>" ++ content ++ "</at>" ++
  replace_from mention_pattern mention_template post 0.
Proof.
  intros Hne Hall Hlt Hgt.
  pose proof (exec_marker k content m post Hne Hall Hlt Hgt) as E.
  set (body := repeat_char "<" (S k) ++ content ++ repeat_char ">" (S m)).
  assert (B : repeat_char "<" (S k) ++ content ++
              repeat_char ">" (S m) ++ post = body ++ post).
  { unfold body. now rewrite !append_assoc. }
  rewrite B in *.
  change ("@" ++ body ++ post) with (String "@" (body ++ post)) in *.
  rewrite (replace_from_match _ _ _ _ _ _ E eq_refl).
  cbn [capture].
  replace (S k + String.length content + S m) with (String.length body).
  - rewrite replace_from_skip. unfold mention_template. cbn [expand].
    now rewrite append_nil_r, !append_assoc.
  - unfold body. rewrite !length_append, !length_repeat_char. lia.
Qed.

(** Where no "@<<" begins, the pattern of the source and the pattern of
    the specification match alike. *)
Lemma exec_spec_agree (c : ascii) (s : string) (st : mstate) :
  Ascii.eqb c "@" && starts_with2 "<" "<" s = false ->
  exec mention_pattern (String c s) st =
  exec spec_mention_pattern (String c s) st.
Proof.
  intros H. unfold mention_pattern, spec_mention_pattern.
  cbn [exec accepts]. destruct (Ascii.eqb c "@"); [| reflexivity].
  destruct s as [|d s]; [reflexivity |].
  cbn [plus_loop accepts]. simpl in H.
  destruct (Ascii.eqb d "<"); [| reflexivity].
  simpl in H. rewrite plus_loop_blocked; [reflexivity |].
  now apply blocked_lit_not_start.
Qed.

Lemma replace_from_spec_agree (t : template) (s : string) (skip : nat) :
  has_double_open s = false ->
  replace_from mention_pattern t s skip =
  replace_from spec_mention_pattern t s skip.
Proof.
  revert skip. induction s as [|c s IH]; intros skip H.
  - destruct skip; reflexivity.
  - simpl in H. apply orb_false_iff in H as [Hc Hs].
    destruct skip as [|n]; cbn [replace_from].
    + rewrite (exec_spec_agree c s start Hc).
      destruct (exec spec_mention_pattern (String c s) start) as [m |].
      * destruct (consumed m); now rewrite IH.
      * now rewrite IH.
    + now apply IH.
Qed.

Lemma sources_head (c : ascii) (ms : list marker) :
  Ascii.eqb "@" c = false -> starts_with c (sources ms) = false.
Proof. destruct ms as [|m ms]; intros H; [reflexivity | exact H]. Qed.

Lemma starts_with_after (m : marker) (rest : string) :
  starts_with ">" (after m) = false ->
  starts_with ">" rest = false ->
  starts_with ">" (after m ++ rest) = false.
Proof. destruct (after m); simpl; auto. Qed.

Lemma replace_sources (ms : list marker) :
  forallb marker_ok ms = true ->
  replace_from mention_pattern mention_template (sources ms) 0 = targets ms.
Proof.
  induction ms as [|m ms IH]; intros Hok; [reflexivity |].
  simpl in Hok. apply andb_true_iff in Hok as [Hm Hms].
  unfold marker_ok in Hm.
  repeat (apply andb_true_iff in Hm as [Hm ?]).
  repeat match goal with
         | H : negb _ = true |- _ => apply negb_true_iff in H
         end.
  assert (Hne : inner m <> "") by now apply String.eqb_neq.
  cbn [sources targets]. unfold marker_source, marker_target.
  rewrite !append_assoc.
  rewrite replace_marker; try assumption.
  - rewrite replace_plain; try assumption.
    + now rewrite IH.
    + now apply sources_head.
  - apply starts_with_after; [assumption | now apply sources_head].
Qed.

(** Markers that stand apart are all rewritten, each where it stood. *)
Lemma replace_markers (pre : string) (ms : list marker) :
  has_marker pre = false ->
  forallb marker_ok ms = true ->
  replace mention_pattern mention_template (pre ++ sources ms) =
  pre ++ targets ms.
Proof.
  intros Hpre Hok. unfold replace.
  rewrite replace_plain; [| assumption | now apply sources_head].
  now rewrite replace_sources.
Qed.

(** ** The text field of the two text builders *)

Section Text.

Variable toUnicodeVersion : string -> string.

Lemma bind_coercible {B : Type} (arg : value) (k : value -> result B) :
  coercible arg = Ok arg -> bind (coercible arg) k = k arg.
Proof. intros H. now rewrite H. Qed.

Lemma textBlock_text (arg : value) (s : string) :
  coercible arg = Ok arg ->
  get arg "text" = VStr s ->
  s <> "" ->
  field "text" (textBlock toUnicodeVersion arg) =
  Some (VStr (toUnicodeVersion (replace mention_pattern mention_template s))).
Proof.
  intros Hc Ht Hs. unfold textBlock. rewrite (bind_coercible _ _ Hc).
  cbv zeta. rewrite Ht. cbn [truthy typeof].
  apply String.eqb_neq in Hs. rewrite Hs. reflexivity.
Qed.

Lemma textRun_text (arg : value) (s : string) :
  coercible arg = Ok arg ->
  get arg "text" = VStr s ->
  s <> "" ->
  field "text" (textRun toUnicodeVersion arg) =
  Some (VStr (toUnicodeVersion (replace mention_pattern mention_template s))).
Proof.
  intros Hc Ht Hs. unfold textRun. rewrite (bind_coercible _ _ Hc).
  cbv zeta. rewrite Ht. cbn [truthy typeof].
  apply String.eqb_neq in Hs. rewrite Hs. reflexivity.
Qed.

End Text.

(** Unfolds a builder applied to an argument that can be destructured. *)
Ltac open_builder Hc :=
  unfold textBlock, image, media, mediaSource, richTextBlock, textRun,
    userIcon;
  rewrite ?(bind_coercible _ _ Hc); cbv zeta.

(** * The claims *)

(** ** Mention rewrite *)

(** C1, as amended.  On a text in which no "@<" is followed at once by
    one more "<", [textBlock] and [textRun] do what the specification
    says: the global replacement, from left to right, of every match of
    "@<", one or more characters other than ">" and "[", one or more ">"
    by "<at>", the captured inner text and "</at>".  Spelled out: take a
    mention marker of the form "@<", an inner text, one or more ">",
    where the inner text is not empty, has neither ">" nor "[" and does
    not begin with "<", and where the text behind the marker does not
    begin with ">".  When it stands behind a stretch without "@<", it is
    replaced by "<at>", the inner text and "</at>", the stretch before it
    is kept and the text behind it is treated in the same way.  So a text
    made of such markers, with stretches without "@<" before, between and
    behind them, comes out with every marker replaced, everything else
    kept and the order unchanged.  In each case the emoji conversion is
    applied to the outcome. *)
Theorem mention_rewrite_global (conv : string -> string) (arg : value) :
  coercible arg = Ok arg ->
  (forall s : string,
     get arg "text" = VStr s ->
     s <> "" ->
     has_double_open s = false ->
     let out := conv (replace spec_mention_pattern mention_template s) in
     field "text" (textBlock conv arg) = Some (VStr out) /\
     field "text" (textRun conv arg) = Some (VStr out)) /\
  (forall (pre content : string) (m : nat) (post : string),
     get arg "text" =
       VStr (pre ++ "@<" ++ content ++ repeat_char ">" (S m) ++ post) ->
     has_marker pre = false ->
     content <> "" ->
     all_accepted (NoneOf [">"; "["]%char) content = true ->
     starts_with "<" content = false ->
     starts_with ">" post = false ->
     let out :=
       conv (pre ++ "<at>" ++ content ++ "</at>" ++
             replace mention_pattern mention_template post) in
     field "text" (textBlock conv arg) = Some (VStr out) /\
     field "text" (textRun conv arg) = Some (VStr out)) /\
  (forall (pre : string) (ms : list marker),
     get arg "text" = VStr (pre ++ sources ms) ->
     pre ++ sources ms <> "" ->
     has_marker pre = false ->
     forallb marker_ok ms = true ->
     forallb (fun m => Nat.eqb (opening m) 0) ms = true ->
     field "text" (textBlock conv arg) =
       Some (VStr (conv (pre ++ targets ms))) /\
     field "text" (textRun conv arg) =
       Some (VStr (conv (pre ++ targets ms)))).
Proof.
  intros Hc. split; [| split].
  - intros s Ht Hne Hs out.
    rewrite (textBlock_text conv arg _ Hc Ht Hne).
    rewrite (textRun_text conv arg _ Hc Ht Hne).
    unfold out, replace. now rewrite replace_from_spec_agree.
  - intros pre content m post Ht Hpre Hne Hall Hlt Hgt out.
    assert (Hin : pre ++ "@<" ++ content ++ repeat_char ">" (S m) ++ post
                  <> "").
    { destruct pre; discriminate. }
    rewrite (textBlock_text conv arg _ Hc Ht Hin).
    rewrite (textRun_text conv arg _ Hc Ht Hin).
    unfold out, replace.
    rewrite replace_plain by (assumption || reflexivity).
    change ("@<" ++ content ++ repeat_char ">" (S m) ++ post)
      with ("@" ++ repeat_char "<" 1 ++ content ++
            repeat_char ">" (S m) ++ post).
    rewrite replace_marker by assumption.
    split; reflexivity.
  - intros pre ms Ht Hne Hpre Hok _.
    rewrite (textBlock_text conv arg _ Hc Ht Hne).
    rewrite (textRun_text conv arg _ Hc Ht Hne).
    now rewrite replace_markers.
Qed.

Lemma mention_rewrite_global_witness :
  field "text"
    (textBlock (fun s => s)
       (VObj [("text", VStr "Hi @<Jane Doe>, meet @<Bob>> now")])) =
  Some (VStr "Hi <at>Jane Doe</at>, meet <at>Bob</at> now") /\
  field "text"
    (textRun (fun s => s)
       (VObj [("text", VStr "Hi @<Jane Doe>, meet @<Bob>> now")])) =
  Some (VStr "Hi <at>Jane Doe</at>, meet <at>Bob</at> now").
Proof.
  exact (proj2 (proj2
           (mention_rewrite_global (fun s => s)
              (VObj [("text", VStr "Hi @<Jane Doe>, meet @<Bob>> now")])
              eq_refl))
           "Hi "
           [Marker 0 "Jane Doe" 0 ", meet "; Marker 0 "Bob" 1 " now"]
           eq_refl ltac:(discriminate) eq_refl eq_refl eq_refl).
Defined.

(** C1, as stated, fails: "<Jane" has neither ">" nor "[", so "@<<Jane>"
    is "@<", an inner text and ">"; the text that comes out holds "Jane"
    between the tags, not "<Jane". *)
Lemma mention_rewrite_inner_text_counterexample :
  all_accepted (NoneOf [">"; "["]%char) "<Jane" = true /\
  replace spec_mention_pattern mention_template ("@<" ++ "<Jane" ++ ">") =
  "<at>" ++ "<Jane" ++ "</at>" /\
  field "text"
    (textBlock (fun s => s) (VObj [("text", VStr ("@<" ++ "<Jane" ++ ">"))])) =
  Some (VStr "<at>Jane</at>") /\
  field "text"
    (textBlock (fun s => s) (VObj [("text", VStr ("@<" ++ "<Jane" ++ ">"))])) <>
  Some (VStr ("<at>" ++ "<Jane" ++ "</at>")) /\
  field "text"
    (textRun (fun s => s) (VObj [("text", VStr ("@<" ++ "<Jane" ++ ">"))])) <>
  Some (VStr ("<at>" ++ "<Jane" ++ "</at>")).
Proof.
  repeat split; try reflexivity; vm_compute; discriminate.
Qed.

(** The two examples of the specification, with a converter that has
    nothing to convert. *)
Example jane_doe_once :
  replace mention_pattern mention_template "@<Jane Doe>" =
  "<at>Jane Doe</at>" /\
  occurrences "<at>Jane Doe</at>"
    (replace mention_pattern mention_template "@<Jane Doe>") = 1.
Proof. split; reflexivity. Qed.

Example two_mentions_in_order :
  replace mention_pattern mention_template "@<Ann> and @<Bob>" =
  "<at>Ann</at> and <at>Bob</at>".
Proof. reflexivity. Qed.

(** When the run of "<" is followed at once by ">", the repetition of "<"
    gives one "<" back and that becomes the inner text. *)
Example lone_angle_backtracks :
  replace mention_pattern mention_template "@<<>" = "<at><</at>".
Proof. reflexivity. Qed.

(** C9, as amended.  A marker that opens with two or more "<" (behind a
    stretch without "@<", with an inner text that is not empty, has
    neither ">" nor "[" and begins where the "<" end, closed by one or
    more ">" up to the last of them) is replaced as a whole, all its "<"
    and ">" included, by "<at>", the inner text and "</at>". *)
Theorem mention_rewrite_leading_angles
    (conv : string -> string) (arg : value) (pre : string) (k : nat)
    (content : string) (m : nat) (post : string) :
  coercible arg = Ok arg ->
  get arg "text" =
    VStr (pre ++ "@" ++ repeat_char "<" (2 + k) ++ content ++
          repeat_char ">" (1 + m) ++ post) ->
  has_marker pre = false ->
  content <> "" ->
  all_accepted (NoneOf [">"; "["]%char) content = true ->
  starts_with "<" content = false ->
  starts_with ">" post = false ->
  let out :=
    conv (pre ++ "<at>" ++ content ++ "</at>" ++
          replace mention_pattern mention_template post) in
  field "text" (textBlock conv arg) = Some (VStr out) /\
  field "text" (textRun conv arg) = Some (VStr out).
Proof.
  intros Hc Ht Hpre Hne Hall Hlt Hgt out.
  assert (Hin : pre ++ "@" ++ repeat_char "<" (2 + k) ++ content ++
                repeat_char ">" (1 + m) ++ post <> "").
  { destruct pre; discriminate. }
  rewrite (textBlock_text conv arg _ Hc Ht Hin).
  rewrite (textRun_text conv arg _ Hc Ht Hin).
  unfold out, replace.
  rewrite replace_plain by (assumption || reflexivity).
  change (2 + k) with (S (S k)). change (1 + m) with (S m).
  rewrite replace_marker by assumption.
  split; reflexivity.
Qed.

Lemma mention_rewrite_leading_angles_witness :
  field "text"
    (textBlock (fun s => s) (VObj [("text", VStr "@<<Jane>>")])) =
  Some (VStr "<at>Jane</at>") /\
  field "text"
    (textRun (fun s => s) (VObj [("text", VStr "@<<Jane>>")])) =
  Some (VStr "<at>Jane</at>").
Proof.
  exact (mention_rewrite_leading_angles (fun s => s)
           (VObj [("text", VStr "@<<Jane>>")]) "" 0 "Jane" 1 ""
           eq_refl eq_refl eq_refl ltac:(discriminate) eq_refl eq_refl
           eq_refl).
Defined.

(** C9, as stated, fails where the inner text is empty or begins with
    "<".  "@<<>" is "@", two "<", an inner text without ">" and "[" (the
    empty one) and one ">": what comes out is "<at><</at>", not
    "<at></at>".  "@<<<x>" is "@", two "<", the inner text "<x" and one
    ">": what comes out holds "x" between the tags, not "<x". *)
Lemma mention_rewrite_empty_inner_counterexample :
  all_accepted (NoneOf [">"; "["]%char) "" = true /\
  field "text"
    (textBlock (fun s => s)
       (VObj [("text",
               VStr ("@" ++ repeat_char "<" 2 ++ "" ++ repeat_char ">" 1))])) =
  Some (VStr "<at><</at>") /\
  field "text"
    (textBlock (fun s => s)
       (VObj [("text",
               VStr ("@" ++ repeat_char "<" 2 ++ "" ++ repeat_char ">" 1))])) <>
  Some (VStr ("<at>" ++ "" ++ "</at>")) /\
  field "text"
    (textRun (fun s => s)
       (VObj [("text",
               VStr ("@" ++ repeat_char "<" 2 ++ "" ++ repeat_char ">" 1))])) <>
  Some (VStr ("<at>" ++ "" ++ "</at>")) /\
  all_accepted (NoneOf [">"; "["]%char) "<x" = true /\
  field "text"
    (textBlock (fun s => s)
       (VObj [("text",
               VStr ("@" ++ repeat_char "<" 2 ++ "<x" ++
                     repeat_char ">" 1))])) =
  Some (VStr "<at>x</at>") /\
  field "text"
    (textBlock (fun s => s)
       (VObj [("text",
               VStr ("@" ++ repeat_char "<" 2 ++ "<x" ++
                     repeat_char ">" 1))])) <>
  Some (VStr ("<at>" ++ "<x" ++ "</at>")).
Proof.
  repeat split; try reflexivity; vm_compute; discriminate.
Qed.

(** ** Shape of the results *)

Lemma array_map_total (f : value -> result value) (items : list value) :
  Forall (fun x => exists y, f x = Ok y) items ->
  exists ys, array_map f items = Ok ys.
Proof.
  induction 1 as [| x items [y Hy] _ [ys Hys]]; simpl.
  - now exists [].
  - rewrite Hy. simpl. rewrite Hys. simpl. now exists (y :: ys).
Qed.

(** C2, as amended.  Whatever the argument, the object returned by
    [textBlock], [image], [media], [richTextBlock], [textRun], [userIcon]
    or [userIconSet] has its literal [type] property; the first six return
    for every argument other than [undefined] and [null], [userIconSet]
    for every array of such values.  The object returned by [mediaSource]
    has no [type] property: its properties are [mimeType] and [url]. *)
Theorem type_discriminant (conv : string -> string) (arg : value) :
  (typed_as "TextBlock" (textBlock conv arg) /\
   typed_as "Image" (image arg) /\
   typed_as "Media" (media arg) /\
   typed_as "RichTextBlock" (richTextBlock arg) /\
   typed_as "TextRun" (textRun conv arg) /\
   typed_as "Component" (userIcon arg) /\
   typed_as "Component" (userIconSet arg)) /\
  (coercible arg = Ok arg ->
   (exists o, textBlock conv arg = Ok o) /\
   (exists o, image arg = Ok o) /\
   (exists o, media arg = Ok o) /\
   (exists o, richTextBlock arg = Ok o) /\
   (exists o, textRun conv arg = Ok o) /\
   (exists o, userIcon arg = Ok o) /\
   (exists o, mediaSource arg = Ok o)) /\
  (forall items,
     arg = VArr items ->
     Forall (fun u => coercible u = Ok u) items ->
     exists o, userIconSet arg = Ok o) /\
  own "type" (mediaSource arg) = None /\
  (coercible arg = Ok arg -> keys (mediaSource arg) = ["mimeType"; "url"]).
Proof.
  split; [| split; [| split; [| split]]].
  - repeat split; destruct arg; simpl; trivial.
    destruct (array_map _ items); simpl; trivial.
  - intros Hc. open_builder Hc. repeat split; eexists; reflexivity.
  - intros items -> Hall. simpl.
    destruct (array_map_total
                (fun user =>
                   u <- coercible user ;;
                   Ok (VObj [("id", get u "id");
                             ("displayName", get u "name");
                             ("userPrincipalName", get u "email")]))
                items) as [ys Hys].
    + eapply Forall_impl; [| exact Hall].
      intros u Hu. simpl in Hu. rewrite Hu. simpl. eauto.
    + rewrite Hys. simpl. eauto.
  - destruct arg; reflexivity.
  - intros Hc. open_builder Hc. reflexivity.
Qed.

Lemma type_discriminant_witness :
  (exists o,
     userIconSet
       (VArr [VObj [("id", VStr "1"); ("name", VStr "A");
                    ("email", VStr "a@x.com")]]) = Ok o) /\
  typed_as "Component"
    (userIconSet
       (VArr [VObj [("id", VStr "1"); ("name", VStr "A");
                    ("email", VStr "a@x.com")]])).
Proof.
  pose (users := VArr [VObj [("id", VStr "1"); ("name", VStr "A");
                             ("email", VStr "a@x.com")]]).
  split.
  - apply (proj1 (proj2 (proj2 (type_discriminant (fun s => s) users)))
             _ eq_refl).
    repeat constructor.
  - apply (type_discriminant (fun s => s) users).
Defined.

(** C2, as stated, fails for [mediaSource]: its result has the two
    properties [mimeType] and [url] and no [type]. *)
Lemma mediaSource_type_counterexample :
  mediaSource (VObj [("mimeType", VStr "video/mp4");
                     ("url", VStr "https://x/y.mp4")]) =
  Ok (VObj [("mimeType", VStr "video/mp4");
            ("url", VStr "https://x/y.mp4")]) /\
  own "type"
    (mediaSource (VObj [("mimeType", VStr "video/mp4");
                        ("url", VStr "https://x/y.mp4")])) = None.
Proof. split; reflexivity. Qed.

(** ** Text that is not a non-empty string *)

(** C3.  When the [text] handed to [textBlock] or [textRun] is not a
    non-empty string ([undefined], also by omission, [null], a boolean, a
    number, the empty string, an array or an object), the [text] of the
    result is that very value: neither the mention rewrite nor the emoji
    conversion has touched it. *)
Theorem text_passthrough (conv : string -> string) (arg : value) :
  coercible arg = Ok arg ->
  (forall s, get arg "text" = VStr s -> s = "") ->
  field "text" (textBlock conv arg) = Some (get arg "text") /\
  field "text" (textRun conv arg) = Some (get arg "text").
Proof.
  intros Hc Hs. open_builder Hc.
  destruct (get arg "text") as [| | b | n | s | items | ps] eqn:Ht;
    try (split; cbn [truthy typeof andb]; rewrite ?andb_false_r;
         reflexivity).
  rewrite (Hs s eq_refl). split; reflexivity.
Qed.

Lemma text_passthrough_witness :
  field "text" (textBlock (fun _ => "changed")
                  (VObj [("text", VNum 42%float)])) = Some (VNum 42%float) /\
  field "text" (textRun (fun _ => "changed")
                  (VObj [("text", VNum 42%float)])) = Some (VNum 42%float).
Proof.
  apply (text_passthrough (fun _ => "changed")
           (VObj [("text", VNum 42%float)]) eq_refl).
  intros s H. discriminate H.
Defined.

Example text_passthrough_values :
  field "text" (textBlock (fun _ => "changed") (VObj [])) = Some VUndefined /\
  field "text" (textBlock (fun _ => "changed") (VObj [("text", VNull)])) =
  Some VNull /\
  field "text" (textBlock (fun _ => "changed") (VObj [("text", VStr "")])) =
  Some (VStr "") /\
  field "text" (textRun (fun _ => "changed")
                  (VObj [("text", VNum 0%float)])) = Some (VNum 0%float).
Proof. repeat split; reflexivity. Qed.

(** ** Defaults *)

(** C4.  In the result of [textBlock], a field that was left out takes its
    default: [wrap] is [true], [horizontalAlignment] is "left", [style] is
    "default", [isSubtle] and [separator] are [false], [isVisible] is
    [true]; [color], [fontType], [maxLines], [size], [weight], [height],
    [spacing] and [id] have no default and read as [undefined]. *)
Theorem textBlock_defaults (conv : string -> string) (arg : value) :
  coercible arg = Ok arg ->
  let r := textBlock conv arg in
  (get arg "wrap" = VUndefined -> field "wrap" r = Some (VBool true)) /\
  (get arg "horizontalAlignment" = VUndefined ->
   field "horizontalAlignment" r = Some (VStr "left")) /\
  (get arg "style" = VUndefined -> field "style" r = Some (VStr "default")) /\
  (get arg "isSubtle" = VUndefined ->
   field "isSubtle" r = Some (VBool false)) /\
  (get arg "separator" = VUndefined ->
   field "separator" r = Some (VBool false)) /\
  (get arg "isVisible" = VUndefined ->
   field "isVisible" r = Some (VBool true)) /\
  (forall k,
     In k ["color"; "fontType"; "maxLines"; "size"; "weight"; "height";
           "spacing"; "id"] ->
     get arg k = VUndefined -> field k r = Some VUndefined).
Proof.
  intros Hc r. unfold r. open_builder Hc.
  repeat split; try (intros H; cbn [field get lookup String.eqb Ascii.eqb
                                    Bool.eqb]; now rewrite H).
  intros k Hk Hu. cbn [In] in Hk.
  repeat (destruct Hk as [<- | Hk];
          [cbn [field get lookup String.eqb Ascii.eqb Bool.eqb];
           now rewrite Hu |]).
  contradiction.
Qed.

Lemma textBlock_defaults_witness :
  field "wrap" (textBlock (fun s => s) (VObj [("text", VStr "x")])) =
  Some (VBool true) /\
  field "horizontalAlignment"
    (textBlock (fun s => s) (VObj [("text", VStr "x")])) =
  Some (VStr "left") /\
  field "color" (textBlock (fun s => s) (VObj [("text", VStr "x")])) =
  Some VUndefined.
Proof.
  pose proof (textBlock_defaults (fun s => s) (VObj [("text", VStr "x")])
                eq_refl) as H.
  cbv zeta in H.
  destruct H as (Hwrap & Halign & _ & _ & _ & _ & Hrest).
  split; [exact (Hwrap eq_refl) |].
  split; [exact (Halign eq_refl) |].
  exact (Hrest "color" (or_introl eq_refl) eq_refl).
Defined.

Lemma defaulting_default (arg : value) (k : string) (d : value)
    (r : result value) :
  field k r = Some (default (get arg k) d) -> defaulting arg k d r.
Proof.
  intros H. split; intros Hk; rewrite H.
  - now rewrite Hk.
  - destruct (get arg k); try reflexivity. now contradiction Hk.
Qed.

(** C10.  A default is used only for a field that reads as [undefined],
    left out or given as such; any other value given for a field with a
    default, [null] and [false] among them, is the value of that field in
    the result. *)
Theorem defaults_only_for_undefined
    (conv : string -> string) (arg : value) (k : string) (d : value) :
  coercible arg = Ok arg ->
  (In (k, d) [("horizontalAlignment", get Base.HAlign "left");
              ("isSubtle", VBool false); ("wrap", VBool true);
              ("style", VStr "default"); ("separator", VBool false);
              ("isVisible", VBool true)] ->
   defaulting arg k d (textBlock conv arg)) /\
  (In (k, d) [("altText", VStr "image");
              ("horizontalAlignment", get Base.HAlign "left");
              ("separator", VBool false); ("isVisible", VBool true)] ->
   defaulting arg k d (image arg)) /\
  (In (k, d) [("separator", VBool false); ("isVisible", VBool true)] ->
   defaulting arg k d (media arg)) /\
  (In (k, d) [("horizontalAlignment", get Base.HAlign "left");
              ("separator", VBool false); ("isVisible", VBool true)] ->
   defaulting arg k d (richTextBlock arg)) /\
  (In (k, d) [("highlight", VBool false); ("isSubtle", VBool false);
              ("italic", VBool false); ("strikethrough", VBool false);
              ("underline", VBool false)] ->
   defaulting arg k d (textRun conv arg)).
Proof.
  intros Hc. open_builder Hc.
  split; [| split; [| split; [| split]]]; intros Hk; cbn [In] in Hk;
    repeat (destruct Hk as [E | Hk];
            [injection E as <- <-; apply defaulting_default; reflexivity |]);
    contradiction.
Qed.

Lemma defaults_only_for_undefined_witness :
  defaulting (VObj [("text", VStr "x"); ("wrap", VNull)]) "wrap" (VBool true)
    (textBlock (fun s => s) (VObj [("text", VStr "x"); ("wrap", VNull)])) /\
  field "wrap"
    (textBlock (fun s => s) (VObj [("text", VStr "x"); ("wrap", VNull)])) =
  Some VNull.
Proof.
  assert (H : defaulting (VObj [("text", VStr "x"); ("wrap", VNull)]) "wrap"
                (VBool true)
                (textBlock (fun s => s)
                   (VObj [("text", VStr "x"); ("wrap", VNull)]))).
  { apply (defaults_only_for_undefined (fun s => s)
             (VObj [("text", VStr "x"); ("wrap", VNull)]) "wrap" (VBool true)
             eq_refl).
    simpl. tauto. }
  split; [exact H |].
  apply (proj2 H). discriminate.
Defined.

Example wrap_false_kept :
  field "wrap"
    (textBlock (fun s => s)
       (VObj [("text", VStr "x"); ("wrap", VBool false)])) =
  Some (VBool false).
Proof. reflexivity. Qed.

Example wrap_undefined_defaulted :
  field "wrap"
    (textBlock (fun s => s)
       (VObj [("text", VStr "x"); ("wrap", VUndefined)])) =
  Some (VBool true).
Proof. reflexivity. Qed.

(** ** Derived and renamed fields *)

(** C5.  The result of [image] always has an own [msTeams] property, and
    it is never [undefined]: it is the object with the one property
    [allowExpand: true] when [allowZoom] is [true], and the empty object
    when [allowZoom] is [false] or left out. *)
Theorem image_msTeams (arg : value) :
  coercible arg = Ok arg ->
  exists v,
    own "msTeams" (image arg) = Some v /\
    v <> VUndefined /\
    (get arg "allowZoom" = VBool true ->
     v = VObj [("allowExpand", VBool true)]) /\
    (get arg "allowZoom" = VBool false \/ get arg "allowZoom" = VUndefined ->
     v = VObj []).
Proof.
  intros Hc. open_builder Hc.
  exists (if truthy (default (get arg "allowZoom") (VBool false))
          then VObj [("allowExpand", VBool true)] else VObj []).
  split; [reflexivity |].
  split; [destruct (truthy _); discriminate |].
  split.
  - intros H. now rewrite H.
  - intros [H | H]; now rewrite H.
Qed.

Lemma image_msTeams_witness :
  exists v,
    own "msTeams"
      (image (VObj [("url", VStr "https://x/y.png");
                    ("allowZoom", VBool true)])) = Some v /\
    v <> VUndefined /\
    (VBool true = VBool true -> v = VObj [("allowExpand", VBool true)]) /\
    (VBool true = VBool false \/ VBool true = VUndefined -> v = VObj []).
Proof.
  exact (image_msTeams
           (VObj [("url", VStr "https://x/y.png"); ("allowZoom", VBool true)])
           eq_refl).
Defined.

Example image_msTeams_values :
  own "msTeams"
    (image (VObj [("url", VStr "u"); ("allowZoom", VBool true)])) =
  Some (VObj [("allowExpand", VBool true)]) /\
  own "msTeams"
    (image (VObj [("url", VStr "u"); ("allowZoom", VBool false)])) =
  Some (VObj []) /\
  own "msTeams" (image (VObj [("url", VStr "u")])) = Some (VObj []).
Proof. repeat split; reflexivity. Qed.

Lemma array_map_objects (users : list object) :
  array_map
    (fun user =>
       u <- coercible user ;;
       Ok (VObj [("id", get u "id");
                 ("displayName", get u "name");
                 ("userPrincipalName", get u "email")]))
    (map VObj users) =
  Ok (map renamed users).
Proof.
  induction users as [|u users IH]; [reflexivity |].
  cbn [map array_map]. rewrite IH. reflexivity.
Qed.

(** C6.  For a sequence of user records, [userIconSet] returns the
    component named "graph.microsoft.com/users", with view "compact" and
    type "Component", whose [properties.users] is the sequence of the
    renamed triples: one for each record, in the order of the input,
    duplicates kept, and a property the record lacks read as
    [undefined]. *)
Theorem userIconSet_users (users : list object) :
  userIconSet (VArr (map VObj users)) =
  Ok (VObj [("type", VStr "Component");
            ("name", VStr "graph.microsoft.com/users");
            ("view", VStr "compact");
            ("properties", VObj [("users", VArr (map renamed users))])]) /\
  List.length (map renamed users) = List.length users /\
  (forall i user,
     nth_error users i = Some user ->
     nth_error (map renamed users) i =
     Some (VObj [("id", get (VObj user) "id");
                 ("displayName", get (VObj user) "name");
                 ("userPrincipalName", get (VObj user) "email")])).
Proof.
  split; [| split].
  - unfold userIconSet. rewrite array_map_objects. reflexivity.
  - apply length_map.
  - intros i user H. rewrite nth_error_map, H. reflexivity.
Qed.

Lemma userIconSet_users_witness :
  nth_error
    (map renamed
       [[("id", VStr "1"); ("name", VStr "A"); ("email", VStr "a@x.com")];
        [("id", VStr "2"); ("name", VStr "B"); ("email", VStr "b@x.com")]])
    1 =
  Some (VObj [("id", VStr "2"); ("displayName", VStr "B");
              ("userPrincipalName", VStr "b@x.com")]).
Proof.
  exact (proj2 (proj2 (userIconSet_users
           [[("id", VStr "1"); ("name", VStr "A"); ("email", VStr "a@x.com")];
            [("id", VStr "2"); ("name", VStr "B");
             ("email", VStr "b@x.com")]]))
           1 _ eq_refl).
Defined.

Example userIconSet_two_users :
  field "properties"
    (userIconSet
       (VArr [VObj [("id", VStr "1"); ("name", VStr "A");
                    ("email", VStr "a@x.com")];
              VObj [("id", VStr "2"); ("name", VStr "B");
                    ("email", VStr "b@x.com")]])) =
  Some (VObj [("users",
               VArr [VObj [("id", VStr "1"); ("displayName", VStr "A");
                           ("userPrincipalName", VStr "a@x.com")];
                     VObj [("id", VStr "2"); ("displayName", VStr "B");
                           ("userPrincipalName", VStr "b@x.com")]])]).
Proof. reflexivity. Qed.

Example userIconSet_keeps_duplicates_and_gaps :
  field "properties"
    (userIconSet
       (VArr [VObj [("id", VStr "1")]; VObj [("id", VStr "1")]])) =
  Some (VObj [("users",
               VArr [VObj [("id", VStr "1"); ("displayName", VUndefined);
                           ("userPrincipalName", VUndefined)];
                     VObj [("id", VStr "1"); ("displayName", VUndefined);
                           ("userPrincipalName", VUndefined)]])]).
Proof. reflexivity. Qed.

(** C7.  [mediaSource] returns the object with exactly the two properties
    [mimeType] and [url], holding what the argument reads as under these
    keys; whatever else the argument has is left behind. *)
Theorem mediaSource_exact (arg : value) :
  coercible arg = Ok arg ->
  mediaSource arg =
  Ok (VObj [("mimeType", get arg "mimeType"); ("url", get arg "url")]).
Proof. intros Hc. open_builder Hc. reflexivity. Qed.

Lemma mediaSource_exact_witness :
  mediaSource (VObj [("mimeType", VStr "video/mp4");
                     ("url", VStr "https://x/y.mp4")]) =
  Ok (VObj [("mimeType", VStr "video/mp4");
            ("url", VStr "https://x/y.mp4")]).
Proof.
  exact (mediaSource_exact
           (VObj [("mimeType", VStr "video/mp4");
                  ("url", VStr "https://x/y.mp4")]) eq_refl).
Defined.

(** ** What the preprocessing leaves alone *)

(** C8.  The mention rewrite followed by the emoji conversion is what
    happens to the [text] of [textBlock] and of [textRun], and to nothing
    else: the result of [image] holds the given [url], [id] and (when one
    is given) [altText], the result of [media] the given [altText] and
    [poster], the result of [mediaSource] the given [url], each exactly as
    the argument has it; the same goes for every other field without a
    default, in these builders, in [richTextBlock] and in the two text
    builders themselves, and for every field with a default for which a
    value is given, those of the two text builders included; [userIcon]
    and [userIconSet] put the [id], [name] and [email] of a user into the
    result as they are. *)
Theorem preprocessing_frame (conv : string -> string) (arg : value) :
  coercible arg = Ok arg ->
  (forall s,
     get arg "text" = VStr s -> s <> "" ->
     field "text" (textBlock conv arg) =
       Some (VStr (conv (replace mention_pattern mention_template s))) /\
     field "text" (textRun conv arg) =
       Some (VStr (conv (replace mention_pattern mention_template s)))) /\
  (forall k,
     get arg k <> VUndefined ->
     (In k ["altText"; "horizontalAlignment"; "separator"; "isVisible"] ->
      field k (image arg) = Some (get arg k)) /\
     (In k ["separator"; "isVisible"] ->
      field k (media arg) = Some (get arg k)) /\
     (In k ["horizontalAlignment"; "separator"; "isVisible"] ->
      field k (richTextBlock arg) = Some (get arg k)) /\
     (In k ["horizontalAlignment"; "isSubtle"; "wrap"; "style"; "separator";
            "isVisible"] ->
      field k (textBlock conv arg) = Some (get arg k)) /\
     (In k ["highlight"; "isSubtle"; "italic"; "strikethrough";
            "underline"] ->
      field k (textRun conv arg) = Some (get arg k))) /\
  (forall k,
     In k ["url"; "id"; "backgroundColor"; "height"; "selectAction"; "size";
           "style"; "width"; "spacing"] ->
     field k (image arg) = Some (get arg k)) /\
  (forall k,
     In k ["altText"; "poster"; "sources"; "height"; "spacing"; "id"] ->
     field k (media arg) = Some (get arg k)) /\
  (forall k,
     In k ["url"; "mimeType"] ->
     field k (mediaSource arg) = Some (get arg k)) /\
  (forall k,
     In k ["inlines"; "height"; "spacing"; "id"] ->
     field k (richTextBlock arg) = Some (get arg k)) /\
  (forall k,
     In k ["color"; "fontType"; "maxLines"; "size"; "weight"; "height";
           "spacing"; "id"] ->
     field k (textBlock conv arg) = Some (get arg k)) /\
  (forall k,
     In k ["color"; "fontType"; "selectAction"; "size"; "weight"] ->
     field k (textRun conv arg) = Some (get arg k)) /\
  field "properties" (userIcon arg) =
    Some (VObj [("id", get arg "id");
                ("displayName", get arg "name");
                ("userPrincipalName", get arg "email")]) /\
  (forall users : list object,
     field "properties" (userIconSet (VArr (map VObj users))) =
     Some (VObj [("users",
                  VArr (map (fun user =>
                               VObj [("id", get (VObj user) "id");
                                     ("displayName", get (VObj user) "name");
                                     ("userPrincipalName",
                                      get (VObj user) "email")])
                          users))])).
Proof.
  intros Hc.
  split.
  { intros s Ht Hs.
    now rewrite (textBlock_text conv arg s Hc Ht Hs),
                (textRun_text conv arg s Hc Ht Hs). }
  open_builder Hc.
  split.
  { intros k Hv.
    assert (D : forall d, default (get arg k) d = get arg k).
    { intros d. destruct (get arg k); try reflexivity. now contradiction Hv. }
    split; [| split; [| split; [| split]]]; intros Hk; cbn [In] in Hk;
      repeat (destruct Hk as [<- | Hk];
              [cbn [field get lookup String.eqb Ascii.eqb Bool.eqb];
               now rewrite D |]);
      contradiction. }
  split; [| split; [| split; [| split; [| split; [| split; [| split]]]]]];
    try (intros k Hk; cbn [In] in Hk;
         repeat (destruct Hk as [<- | Hk]; [reflexivity |]);
         contradiction).
  - reflexivity.
  - intros users. unfold userIconSet.
    rewrite array_map_objects. reflexivity.
Qed.

Lemma preprocessing_frame_witness :
  field "altText"
    (image (VObj [("url", VStr "https://x/@<Jane>.png");
                  ("altText", VStr "@<Jane> :smile:")])) =
  Some (VStr "@<Jane> :smile:") /\
  field "url"
    (image (VObj [("url", VStr "https://x/@<Jane>.png");
                  ("altText", VStr "@<Jane> :smile:")])) =
  Some (VStr "https://x/@<Jane>.png") /\
  field "style"
    (textBlock (fun _ => "converted")
       (VObj [("text", VStr "@<Jane>"); ("style", VStr "@<heading>")])) =
  Some (VStr "@<heading>") /\
  field "text"
    (textBlock (fun _ => "converted")
       (VObj [("text", VStr "@<Jane>"); ("style", VStr "@<heading>")])) =
  Some (VStr "converted").
Proof.
  pose proof (preprocessing_frame (fun _ => "converted")
                (VObj [("url", VStr "https://x/@<Jane>.png");
                       ("altText", VStr "@<Jane> :smile:")]) eq_refl)
    as (_ & Halt & Himg & _).
  pose proof (preprocessing_frame (fun _ => "converted")
                (VObj [("text", VStr "@<Jane>"); ("style", VStr "@<heading>")])
                eq_refl)
    as (Htext & Hgiven & _).
  split; [| split; [| split]].
  - exact (proj1 (Halt "altText" ltac:(discriminate)) (or_introl eq_refl)).
  - apply (Himg "url"). simpl. tauto.
  - apply (proj1 (proj2 (proj2 (proj2
             (Hgiven "style" ltac:(discriminate)))))).
    simpl. tauto.
  - exact (proj1 (Htext "@<Jane>" eq_refl ltac:(discriminate))).
Defined.

Example media_fields_untouched :
  field "poster"
    (media (VObj [("sources", VArr []); ("poster", VStr "@<p>");
                  ("altText", VStr "@<a>")])) = Some (VStr "@<p>") /\
  field "altText"
    (media (VObj [("sources", VArr []); ("poster", VStr "@<p>");
                  ("altText", VStr "@<a>")])) = Some (VStr "@<a>").
Proof. split; reflexivity. Qed.

(** * Further properties of the code *)

(** ** What a match looks like *)

Lemma plus_loop_inv a k s st r :
  plus_loop a k s st = Some r ->
  exists run rest,
    s = run ++ rest /\ run <> "" /\ all_accepted a run = true /\
    k rest (take_all run st) = Some r.
Proof.
  revert st. induction s as [|c s IH]; intros st H; [discriminate |].
  cbn [plus_loop] in H. destruct (accepts a c) eqn:Hc; [| discriminate].
  destruct (plus_loop a k s (take c st)) as [r' |] eqn:Hl.
  - injection H as ->. destruct (IH _ Hl) as (run & rest & -> & _ & Hall & Hk).
    exists (String c run), rest. repeat split; try discriminate.
    + simpl. now rewrite Hc, Hall.
    + exact Hk.
  - exists (String c ""), s. repeat split; try discriminate.
    + simpl. now rewrite Hc.
    + exact H.
Qed.

(** With nothing left of the pattern behind it, a repetition stops only
    where it cannot go on. *)
Lemma plus_loop_last_inv a s st r :
  plus_loop a (exec []) s st = Some r ->
  exists run rest,
    s = run ++ rest /\ run <> "" /\ all_accepted a run = true /\
    blocked a rest = true /\ r = take_all run st.
Proof.
  revert st. induction s as [|c s IH]; intros st H; [discriminate |].
  cbn [plus_loop] in H. destruct (accepts a c) eqn:Hc; [| discriminate].
  destruct (plus_loop a (exec []) s (take c st)) as [r' |] eqn:Hl.
  - injection H as ->.
    destruct (IH _ Hl) as (run & rest & E & _ & Hall & Hb & R).
    subst s r.
    exists (String c run), rest. repeat split; try discriminate; trivial.
    simpl. now rewrite Hc, Hall.
  - exists (String c ""), s. injection H as <-.
    repeat split; try discriminate.
    + simpl. now rewrite Hc.
    + destruct s as [|d s]; [reflexivity |].
      cbn [plus_loop] in Hl. simpl.
      destruct (accepts a d); [| reflexivity].
      destruct (plus_loop a (exec []) s (take d (take c st))); discriminate.
Qed.

Lemma all_accepted_lit (c : ascii) (s : string) :
  all_accepted (Lit c) s = true -> s = repeat_char c (String.length s).
Proof.
  induction s as [|d s IH]; [reflexivity |].
  simpl. intros H. apply andb_true_iff in H as [Hd Hs].
  apply Ascii.eqb_eq in Hd. subst d. now rewrite <- IH.
Qed.

Lemma nonempty_length (s : string) :
  s <> "" -> exists n, String.length s = S n.
Proof. destruct s; [now intros [] | intros _; simpl; eauto]. Qed.

Lemma exec_mention_inv (s : string) (st m : mstate) :
  exec mention_pattern s st = Some m ->
  exists r1 r2 r3 rest,
    s = "@" ++ r1 ++ r2 ++ r3 ++ rest /\
    (r1 <> "" /\ all_accepted (Lit "<") r1 = true) /\
    (r2 <> "" /\ all_accepted (NoneOf [">"; "["]%char) r2 = true) /\
    (r3 <> "" /\ all_accepted (Lit ">") r3 = true) /\
    m = take_all r3 (group_close (take_all r2 (group_open
          (take_all r1 (take "@" st))))) /\
    blocked (Lit ">") rest = true.
Proof.
  unfold mention_pattern. cbn [exec]. intros H.
  destruct s as [|c s]; [discriminate |].
  destruct (accepts (Lit "@") c) eqn:Hc; [| discriminate].
  simpl in Hc. apply Ascii.eqb_eq in Hc. subst c.
  apply plus_loop_inv in H as (r1 & s1 & -> & N1 & A1 & H).
  apply plus_loop_inv in H as (r2 & s2 & -> & N2 & A2 & H).
  apply plus_loop_last_inv in H as (r3 & s3 & E3 & N3 & A3 & B3 & R3).
  subst.
  exists r1, r2, r3, s3. repeat split; assumption.
Qed.

Lemma has_char_append (c : ascii) (x y : string) :
  has_char c (x ++ y) = has_char c x || has_char c y.
Proof.
  induction x as [|d x IH]; [reflexivity |].
  simpl. now rewrite IH, orb_assoc.
Qed.

Lemma all_accepted_append (a : class) (x y : string) :
  all_accepted a (x ++ y) = all_accepted a x && all_accepted a y.
Proof.
  induction x as [|d x IH]; [reflexivity |].
  simpl. now rewrite IH, andb_assoc.
Qed.

Lemma all_accepted_open_run (r : string) :
  all_accepted (Lit "<") r = true ->
  all_accepted (NoneOf [">"; "["]%char) r = true.
Proof.
  induction r as [|d r IH]; [reflexivity |].
  simpl. intros H. apply andb_true_iff in H as [Hd Hr].
  apply Ascii.eqb_eq in Hd. subst d. now rewrite IH.
Qed.

(** Two ways to cut a string at its first rejected character agree. *)
Lemma first_rejected (a : class) (x y x' y' : string) (c d : ascii) :
  all_accepted a x = true -> all_accepted a y = true ->
  accepts a c = false -> accepts a d = false ->
  x ++ String c x' = y ++ String d y' ->
  c = d.
Proof.
  revert y. induction x as [|e x IH]; intros [|f y] Hx Hy Hc Hd E;
    simpl in *.
  - now injection E.
  - injection E as -> _. apply andb_true_iff in Hy as [Hy _]. congruence.
  - injection E as -> _. apply andb_true_iff in Hx as [Hx _]. congruence.
  - injection E as -> E. apply andb_true_iff in Hx as [_ Hx].
    apply andb_true_iff in Hy as [_ Hy]. now apply (IH y).
Qed.

(** No match without a ">" ahead. *)
Lemma exec_needs_close (s : string) (st : mstate) :
  has_char ">" s = false -> exec mention_pattern s st = None.
Proof.
  intros H. destruct (exec mention_pattern s st) as [m |] eqn:E;
    [| reflexivity].
  apply exec_mention_inv in E
    as (r1 & r2 & r3 & rest & -> & _ & _ & [N3 A3] & _).
  destruct r3 as [|d r3]; [now contradiction N3 |].
  simpl in A3. apply andb_true_iff in A3 as [Hd _].
  apply Ascii.eqb_eq in Hd. subst d.
  rewrite !has_char_append in H. simpl in H.
  rewrite !orb_true_r in H. discriminate H.
Qed.

(** No match when the first of ">" and "[" ahead is "[". *)
Lemma exec_bracket_first (u y : string) (st : mstate) :
  all_accepted (NoneOf [">"; "["]%char) u = true ->
  exec mention_pattern (u ++ String "[" y) st = None.
Proof.
  intros Hu. destruct (exec mention_pattern _ st) as [m |] eqn:E;
    [| reflexivity].
  apply exec_mention_inv in E
    as (r1 & r2 & r3 & rest & E & [_ A1] & [_ A2] & [N3 A3] & _).
  destruct r3 as [|d r3]; [now contradiction N3 |].
  simpl in A3. apply andb_true_iff in A3 as [Hd _].
  apply Ascii.eqb_eq in Hd. subst d.
  replace ("@" ++ r1 ++ r2 ++ String ">" r3 ++ rest)
    with (("@" ++ r1 ++ r2) ++ String ">" (r3 ++ rest)) in E
    by (simpl; now rewrite !append_assoc).
  assert (C : "["%char = ">"%char).
  { apply (first_rejected (NoneOf [">"; "["]%char) u ("@" ++ r1 ++ r2)
             y (r3 ++ rest)); try reflexivity; try assumption.
    change ("@" ++ r1 ++ r2) with (String "@" (r1 ++ r2)).
    cbn [all_accepted]. rewrite all_accepted_append, A2.
    now rewrite all_accepted_open_run. }
  discriminate C.
Qed.

Lemma replace_unclosed (s : string) :
  has_char ">" s = false ->
  replace_from mention_pattern mention_template s 0 = s.
Proof.
  induction s as [|c s IH]; intros H; [reflexivity |].
  cbn [replace_from]. rewrite exec_needs_close by exact H.
  simpl in H. apply orb_false_iff in H as [_ H]. now rewrite IH.
Qed.

Lemma replace_bracket (u y : string) :
  all_accepted (NoneOf [">"; "["]%char) u = true ->
  replace_from mention_pattern mention_template (u ++ String "[" y) 0 =
  u ++ String "[" (replace_from mention_pattern mention_template y 0).
Proof.
  induction u as [|c u IH]; intros H.
  - cbn [append replace_from]. now rewrite exec_not_marker.
  - change (String c u ++ String "[" y) with (String c (u ++ String "[" y)).
    cbn [replace_from].
    change (String c (u ++ String "[" y)) with (String c u ++ String "[" y).
    rewrite exec_bracket_first by exact H.
    simpl in H. apply andb_true_iff in H as [_ H]. now rewrite IH.
Qed.

Lemma take_all_append (x y : string) (st : mstate) :
  take_all (x ++ y) st = take_all y (take_all x st).
Proof.
  revert st. induction x as [|c x IH]; intros st; [reflexivity |].
  simpl. now rewrite IH.
Qed.

Lemma repeat_char_snoc (c : ascii) (n : nat) :
  repeat_char c (S n) = repeat_char c n ++ String c "".
Proof. induction n as [|n IH]; [reflexivity |]. simpl in *. now rewrite <- IH. Qed.

(** A repetition gives its last character back when the rest of the
    pattern fails behind the whole run and succeeds one character
    earlier. *)
Lemma plus_loop_give_back a k (r : string) (c : ascii) (rest : string)
    st res :
  r <> "" ->
  all_accepted a r = true ->
  accepts a c = true ->
  blocked a rest = true ->
  k rest (take c (take_all r st)) = None ->
  k (String c rest) (take_all r st) = Some res ->
  plus_loop a k (r ++ String c rest) st = Some res.
Proof.
  revert st. induction r as [|d r IH]; intros st Hne Hall Hc Hblk Hn Hs.
  - now contradiction Hne.
  - simpl in Hall. apply andb_true_iff in Hall as [Hd Hall].
    cbn [append plus_loop]. rewrite Hd. destruct r as [|e r].
    + cbn [append plus_loop]. rewrite Hc.
      rewrite plus_loop_blocked by assumption.
      simpl in Hn, Hs. now rewrite Hn.
    + rewrite (IH (take d st)); [reflexivity | discriminate | assumption
                                 | assumption | assumption | exact Hn
                                 | exact Hs].
Qed.

Lemma exec_lone_angle (k j : nat) (post : string) :
  starts_with ">" post = false ->
  exec mention_pattern
       ("@" ++ repeat_char "<" (S (S k)) ++ repeat_char ">" (S j) ++ post)
       start =
  Some (MState (S (S (S k) + S j)) "<" false).
Proof.
  intros Hgt. rewrite repeat_char_snoc, append_assoc.
  unfold mention_pattern. cbn [exec append accepts]. rewrite Ascii.eqb_refl.
  apply plus_loop_give_back.
  - discriminate.
  - apply all_accepted_repeat.
  - reflexivity.
  - reflexivity.
  - reflexivity.
  - change (String "<" (repeat_char ">" (S j) ++ post))
      with ("<" ++ repeat_char ">" (S j) ++ post).
    cbn [exec]. apply plus_loop_run; try reflexivity; try discriminate.
    cbn [exec]. apply plus_loop_run.
    + discriminate.
    + apply all_accepted_repeat.
    + now apply blocked_lit_not_start.
    + cbn [exec]. f_equal.
      set (s1 := take_all (repeat_char "<" (S k)) (take "@" start)).
      assert (E1 : consumed s1 = S (S k)).
      { unfold s1. rewrite consumed_take_all, length_repeat_char.
        simpl. lia. }
      set (s2 := take_all "<" (group_open s1)).
      set (s3 := take_all (repeat_char ">" (S j)) (group_close s2)).
      assert (E3 : consumed s3 = S (S (S k) + S j)).
      { unfold s3. rewrite consumed_take_all, length_repeat_char.
        simpl. rewrite E1. lia. }
      assert (C3 : capture s3 = "<").
      { unfold s3. rewrite capture_take_all. reflexivity. }
      assert (F3 : capturing s3 = false).
      { unfold s3. rewrite capturing_take_all. reflexivity. }
      clearbody s3. destruct s3 as [n c b]. simpl in E3, C3, F3.
      rewrite E3, C3, F3. reflexivity.
Qed.

Lemma replace_lone_angle (k j : nat) (post : string) :
  starts_with ">" post = false ->
  replace_from mention_pattern mention_template
    ("@" ++ repeat_char "<" (S (S k)) ++ repeat_char ">" (S j) ++ post) 0 =
  "<at><</at>" ++ replace_from mention_pattern mention_template post 0.
Proof.
  intros Hgt.
  pose proof (exec_lone_angle k j post Hgt) as E.
  set (body := repeat_char "<" (S (S k)) ++ repeat_char ">" (S j)).
  assert (B : repeat_char "<" (S (S k)) ++ repeat_char ">" (S j) ++ post =
              body ++ post).
  { unfold body. now rewrite append_assoc. }
  rewrite B in *.
  change ("@" ++ body ++ post) with (String "@" (body ++ post)) in *.
  rewrite (replace_from_match _ _ _ _ _ _ E eq_refl).
  cbn [capture].
  replace (S (S k) + S j) with (String.length body).
  - rewrite replace_from_skip. reflexivity.
  - unfold body. rewrite length_append, !length_repeat_char. lia.
Qed.

(** "@<" with ">" right behind it is no marker. *)
Lemma replace_empty_marker (rest : string) :
  replace_from mention_pattern mention_template ("@<>" ++ rest) 0 =
  "@<>" ++ replace_from mention_pattern mention_template rest 0.
Proof. reflexivity. Qed.

Lemma text_is_prepared (conv : string -> string) (arg : value) (s : string) :
  coercible arg = Ok arg ->
  get arg "text" = VStr s ->
  s <> "" ->
  text_is conv arg
    (VStr (conv (replace_from mention_pattern mention_template s 0))).
Proof.
  intros Hc Ht Hs. split.
  - exact (textBlock_text conv arg s Hc Ht Hs).
  - exact (textRun_text conv arg s Hc Ht Hs).
Qed.

(** X1.  Whatever the pattern of lines 120 and 315 matches at the head of
    a text is "@", one or more "<", an inner text that is not empty and
    holds neither ">" nor "[", and one or more ">" up to the last of the
    run; group 1 is that inner text.  So what comes
    between "<at>" and "</at>" is never empty and never holds ">" or
    "[". *)
Theorem mention_match_shape (s : string) (m : mstate) :
  exec mention_pattern s start = Some m ->
  exists (k : nat) (content : string) (j : nat) (rest : string),
    s = "@" ++ repeat_char "<" (S k) ++ content ++
        repeat_char ">" (S j) ++ rest /\
    content <> "" /\
    all_accepted (NoneOf [">"; "["]%char) content = true /\
    starts_with ">" rest = false /\
    capture m = content /\
    consumed m = S (S k + String.length content + S j).
Proof.
  intros E. apply exec_mention_inv in E
    as (r1 & r2 & r3 & rest & E & [N1 A1] & [N2 A2] & [N3 A3] & R & B3).
  subst s m.
  destruct (nonempty_length r1 N1) as [k Hk].
  destruct (nonempty_length r3 N3) as [j Hj].
  exists k, r2, j, rest.
  rewrite (all_accepted_lit _ _ A1) at 1. rewrite Hk.
  rewrite (all_accepted_lit _ _ A3) at 1. rewrite Hj.
  repeat split; try assumption.
  - destruct rest as [|d rest]; [reflexivity |].
    simpl in B3. now apply negb_true_iff in B3.
  - rewrite capture_take_all. cbn [capturing group_close capture].
    now rewrite capture_take_all.
  - rewrite consumed_take_all. cbn [consumed group_close].
    rewrite consumed_take_all. cbn [consumed group_open].
    rewrite consumed_take_all. cbn [consumed take start]. lia.
Qed.

Lemma mention_match_shape_witness :
  exists (k : nat) (content : string) (j : nat) (rest : string),
    "@<<Jane Doe>> and more" =
      "@" ++ repeat_char "<" (S k) ++ content ++
      repeat_char ">" (S j) ++ rest /\
    content <> "" /\
    all_accepted (NoneOf [">"; "["]%char) content = true /\
    starts_with ">" rest = false /\
    capture (MState 13 "Jane Doe" false) = content /\
    consumed (MState 13 "Jane Doe" false) =
      S (S k + String.length content + S j).
Proof.
  exact (mention_match_shape "@<<Jane Doe>> and more"
           (MState 13 "Jane Doe" false) eq_refl).
Defined.

(** X2.  A text that has no "@<", and likewise a text that has no ">",
    goes through the mention rewrite of [textBlock] and [textRun]
    unchanged: the [text] of the result is the emoji conversion of the
    text as given. *)
Theorem mention_rewrite_noop
    (conv : string -> string) (arg : value) (s : string) :
  coercible arg = Ok arg ->
  get arg "text" = VStr s ->
  s <> "" ->
  has_marker s = false \/ has_char ">" s = false ->
  text_is conv arg (VStr (conv s)).
Proof.
  intros Hc Ht Hs H.
  pose proof (text_is_prepared conv arg s Hc Ht Hs) as P.
  assert (E : replace_from mention_pattern mention_template s 0 = s).
  { destruct H as [H | H].
    - pose proof (replace_plain s "" H eq_refl) as R.
      change (replace_from mention_pattern mention_template "" 0)
        with "" in R.
      now rewrite !append_nil_r in R.
    - now apply replace_unclosed. }
  now rewrite E in P.
Qed.

Lemma mention_rewrite_noop_witness :
  text_is (fun s => s) (VObj [("text", VStr "mail a@b.c, 1 < 2 > 0")])
    (VStr "mail a@b.c, 1 < 2 > 0") /\
  text_is (fun s => s) (VObj [("text", VStr "@<Jane [nobody closes this")])
    (VStr "@<Jane [nobody closes this").
Proof.
  split.
  - exact (mention_rewrite_noop (fun s => s)
             (VObj [("text", VStr "mail a@b.c, 1 < 2 > 0")]) _
             eq_refl eq_refl ltac:(discriminate) (or_introl eq_refl)).
  - exact (mention_rewrite_noop (fun s => s)
             (VObj [("text", VStr "@<Jane [nobody closes this")]) _
             eq_refl eq_refl ltac:(discriminate) (or_intror eq_refl)).
Defined.

(** X3.  A "[" that comes before any ">" stops the rewrite of what stands
    before it: the text up to and with that "[" is kept as it is, a "@<"
    in it included, and the rewrite goes on behind the "[". *)
Theorem mention_rewrite_bracket
    (conv : string -> string) (arg : value) (u y : string) :
  coercible arg = Ok arg ->
  get arg "text" = VStr (u ++ String "[" y) ->
  all_accepted (NoneOf [">"; "["]%char) u = true ->
  text_is conv arg
    (VStr (conv (u ++ String "[" (replace mention_pattern mention_template y)))).
Proof.
  intros Hc Ht Hu.
  assert (Hs : u ++ String "[" y <> "") by (destruct u; discriminate).
  pose proof (text_is_prepared conv arg _ Hc Ht Hs) as P.
  now rewrite replace_bracket in P.
Qed.

Lemma mention_rewrite_bracket_witness :
  text_is (fun s => s) (VObj [("text", VStr "@<Jane[1]> and @<Bob>")])
    (VStr "@<Jane[1]> and <at>Bob</at>").
Proof.
  exact (mention_rewrite_bracket (fun s => s)
           (VObj [("text", VStr "@<Jane[1]> and @<Bob>")])
           "@<Jane" "1]> and @<Bob>" eq_refl eq_refl eq_refl).
Defined.

(** X4.  When the "<" behind "@" are followed at once by ">", there is
    nothing for the inner text but a "<": with two or more "<" the last of
    them becomes the inner text and the marker is replaced by
    "<at><</at>"; with a single "<" there is no match and "@<>" stays. *)
Theorem mention_rewrite_lone_angle
    (conv : string -> string) (arg : value) (pre : string) (k j : nat)
    (post : string) :
  coercible arg = Ok arg ->
  has_marker pre = false ->
  (get arg "text" =
     VStr (pre ++ "@" ++ repeat_char "<" (2 + k) ++
           repeat_char ">" (1 + j) ++ post) ->
   starts_with ">" post = false ->
   text_is conv arg
     (VStr (conv (pre ++ "<at><</at>" ++
                  replace mention_pattern mention_template post)))) /\
  (get arg "text" = VStr (pre ++ "@<>" ++ post) ->
   text_is conv arg
     (VStr (conv (pre ++ "@<>" ++
                  replace mention_pattern mention_template post)))).
Proof.
  intros Hc Hpre. split.
  - intros Ht Hgt.
    assert (Hs : pre ++ "@" ++ repeat_char "<" (2 + k) ++
                 repeat_char ">" (1 + j) ++ post <> "")
      by (destruct pre; discriminate).
    pose proof (text_is_prepared conv arg _ Hc Ht Hs) as P.
    rewrite replace_plain in P by (assumption || reflexivity).
    change (2 + k) with (S (S k)) in P. change (1 + j) with (S j) in P.
    now rewrite replace_lone_angle in P.
  - intros Ht.
    assert (Hs : pre ++ "@<>" ++ post <> "") by (destruct pre; discriminate).
    pose proof (text_is_prepared conv arg _ Hc Ht Hs) as P.
    rewrite replace_plain in P by (assumption || reflexivity).
    now rewrite replace_empty_marker in P.
Qed.

Lemma mention_rewrite_lone_angle_witness :
  text_is (fun s => s) (VObj [("text", VStr "a @<<<>> b")])
    (VStr "a <at><</at> b") /\
  text_is (fun s => s) (VObj [("text", VStr "a @<> b")]) (VStr "a @<> b").
Proof.
  split.
  - exact (proj1 (mention_rewrite_lone_angle (fun s => s)
                    (VObj [("text", VStr "a @<<<>> b")]) "a " 1 1 " b"
                    eq_refl eq_refl) eq_refl eq_refl).
  - exact (proj2 (mention_rewrite_lone_angle (fun s => s)
                    (VObj [("text", VStr "a @<> b")]) "a " 0 0 " b"
                    eq_refl eq_refl) eq_refl).
Defined.

(** ** A second pass *)

Lemma no_at_no_marker (s : string) :
  has_char "@" s = false -> has_marker s = false.
Proof.
  induction s as [|c s IH]; [reflexivity |].
  simpl. intros H. apply orb_false_iff in H as [Hc Hs].
  now rewrite Hc, IH.
Qed.

Lemma targets_at_free (ms : list marker) :
  forallb marker_at_free ms = true -> has_char "@" (targets ms) = false.
Proof.
  induction ms as [|m ms IH]; [reflexivity |].
  cbn [forallb targets]. intros H. apply andb_true_iff in H as [Hm Hms].
  unfold marker_at_free in Hm. apply andb_true_iff in Hm as [Hi Ha].
  apply negb_true_iff in Hi, Ha.
  unfold marker_target. rewrite !has_char_append, Hi, Ha, (IH Hms).
  reflexivity.
Qed.

(** X5.  Feeding the rewritten text back changes nothing more, provided
    "@" occurs in the first text only at the head of its markers and the
    emoji conversion leaves the rewritten text alone: the [text] of a
    builder called on the outcome is that outcome. *)
Theorem mention_rewrite_stable
    (conv : string -> string) (arg again : value) (pre : string)
    (ms : list marker) :
  coercible arg = Ok arg ->
  coercible again = Ok again ->
  get arg "text" = VStr (pre ++ sources ms) ->
  pre ++ sources ms <> "" ->
  has_char "@" pre = false ->
  forallb marker_ok ms = true ->
  forallb marker_at_free ms = true ->
  conv (pre ++ targets ms) = pre ++ targets ms ->
  field "text" (textBlock conv arg) = Some (get again "text") ->
  text_is conv arg (VStr (pre ++ targets ms)) /\
  text_is conv again (VStr (pre ++ targets ms)).
Proof.
  intros Hc Hc' Ht Hne Hpre Hok Hat Hconv Hagain.
  pose proof (text_is_prepared conv arg _ Hc Ht Hne) as P.
  fold (replace mention_pattern mention_template (pre ++ sources ms)) in P.
  rewrite replace_markers in P by (try apply no_at_no_marker; assumption).
  rewrite Hconv in P. split; [exact P |].
  destruct P as [P _]. rewrite P in Hagain. injection Hagain as Hagain.
  assert (Hout : pre ++ targets ms <> "").
  { destruct pre; [| discriminate].
    destruct ms; [now contradiction Hne | discriminate]. }
  rewrite <- Hconv at 1.
  apply (mention_rewrite_noop conv again (pre ++ targets ms) Hc');
    [now symmetry | exact Hout |].
  left. apply no_at_no_marker.
  rewrite has_char_append, Hpre. now apply targets_at_free.
Qed.

Lemma mention_rewrite_stable_witness :
  text_is (fun s => s) (VObj [("text", VStr "Hi @<Jane Doe>, bye")])
    (VStr "Hi <at>Jane Doe</at>, bye") /\
  text_is (fun s => s) (VObj [("text", VStr "Hi <at>Jane Doe</at>, bye")])
    (VStr "Hi <at>Jane Doe</at>, bye").
Proof.
  exact (mention_rewrite_stable (fun s => s)
           (VObj [("text", VStr "Hi @<Jane Doe>, bye")])
           (VObj [("text", VStr "Hi <at>Jane Doe</at>, bye")])
           "Hi " [Marker 0 "Jane Doe" 0 ", bye"]
           eq_refl eq_refl eq_refl ltac:(discriminate) eq_refl eq_refl
           eq_refl eq_refl eq_refl).
Defined.

(** Without that proviso a second pass can rewrite again: the "@" that
    ends an inner text meets the "<" of the closing tag. *)
Example second_pass_rewrites_again :
  replace mention_pattern mention_template "@<a@>" = "<at>a@</at>" /\
  replace mention_pattern mention_template "<at>a@</at>" =
  "<at>a<at>/at</at>".
Proof. split; reflexivity. Qed.

(** ** The text builders side by side *)

(** X6.  [textBlock] and [textRun] put the same value under [text] for the
    same argument, and it has the type of the text given: a string stays
    a string, and a number, a boolean, [null], [undefined], an array or an
    object is not turned into one. *)
Theorem text_type_kept (conv : string -> string) (arg : value) :
  coercible arg = Ok arg ->
  exists v,
    text_is conv arg v /\ typeof v = typeof (get arg "text").
Proof.
  intros Hc. unfold text_is. open_builder Hc.
  destruct (get arg "text") as [| | b | n | s | items | ps];
    try (eexists; split; [split; reflexivity |];
         cbn [truthy typeof andb]; rewrite ?andb_false_r; reflexivity).
  destruct s as [|c s]; eexists; (split; [split; reflexivity | reflexivity]).
Qed.

Lemma text_type_kept_witness :
  exists v,
    text_is (fun _ => "") (VObj [("text", VStr "@<Jane>")]) v /\
    typeof v = typeof (get (VObj [("text", VStr "@<Jane>")]) "text").
Proof.
  exact (text_type_kept (fun _ => "") (VObj [("text", VStr "@<Jane>")])
           eq_refl).
Defined.

(** ** The zoom flag *)

Lemma truthy_default_false (v : value) :
  truthy (default v (VBool false)) = truthy v.
Proof. destruct v; reflexivity. Qed.

(** X7.  [image] decides [msTeams] by the truth value of [allowZoom], not
    by its being [true]: every truthy value (a non-empty string, a number
    other than zero and NaN, an array, an object) gives
    [{allowExpand: true}], every falsy one ([null], zero, NaN, the empty
    string, as well as [false] and [undefined]) the empty object. *)
Theorem image_msTeams_truthy (arg : value) :
  coercible arg = Ok arg ->
  own "msTeams" (image arg) =
  Some (if truthy (get arg "allowZoom")
        then VObj [("allowExpand", VBool true)] else VObj []).
Proof.
  intros Hc. open_builder Hc. cbn [own lookup String.eqb Ascii.eqb Bool.eqb].
  now rewrite truthy_default_false.
Qed.

Lemma image_msTeams_truthy_witness :
  own "msTeams" (image (VObj [("url", VStr "u"); ("allowZoom", VStr "false")]))
  = Some (VObj [("allowExpand", VBool true)]) /\
  own "msTeams" (image (VObj [("url", VStr "u"); ("allowZoom", VNull)])) =
  Some (VObj []) /\
  own "msTeams"
    (image (VObj [("url", VStr "u"); ("allowZoom", VNum 0%float)])) =
  Some (VObj []).
Proof.
  split; [| split].
  - exact (image_msTeams_truthy
             (VObj [("url", VStr "u"); ("allowZoom", VStr "false")]) eq_refl).
  - exact (image_msTeams_truthy
             (VObj [("url", VStr "u"); ("allowZoom", VNull)]) eq_refl).
  - exact (image_msTeams_truthy
             (VObj [("url", VStr "u"); ("allowZoom", VNum 0%float)]) eq_refl).
Defined.

(** ** What a builder reads of its argument *)

(** Rewrites every property read of [a] into the same read of [b]. *)
Ltac same_reads a H :=
  repeat match goal with
         | |- context [get a ?k] => rewrite (H k) by (simpl; tauto)
         end.

(** X8.  The result of a builder depends on its argument only through the
    properties the builder names: two arguments that read alike under
    these give the same result.  So whatever else an argument holds never
    reaches the result, a property given as [undefined] counts as left
    out, and an argument without properties, a number say, counts as the
    empty object. *)
Theorem builders_read_named_keys (conv : string -> string) (a b : value) :
  coercible a = Ok a ->
  coercible b = Ok b ->
  ((forall k,
      In k ["text"; "color"; "fontType"; "horizontalAlignment"; "isSubtle";
            "maxLines"; "size"; "weight"; "wrap"; "style"; "height";
            "separator"; "spacing"; "id"; "isVisible"] ->
      get a k = get b k) ->
   textBlock conv a = textBlock conv b) /\
  ((forall k,
      In k ["url"; "altText"; "backgroundColor"; "height";
            "horizontalAlignment"; "selectAction"; "size"; "style"; "width";
            "separator"; "spacing"; "id"; "isVisible"; "allowZoom"] ->
      get a k = get b k) ->
   image a = image b) /\
  ((forall k,
      In k ["sources"; "poster"; "altText"; "height"; "separator";
            "spacing"; "id"; "isVisible"] ->
      get a k = get b k) ->
   media a = media b) /\
  ((forall k, In k ["mimeType"; "url"] -> get a k = get b k) ->
   mediaSource a = mediaSource b) /\
  ((forall k,
      In k ["inlines"; "horizontalAlignment"; "height"; "separator";
            "spacing"; "id"; "isVisible"] ->
      get a k = get b k) ->
   richTextBlock a = richTextBlock b) /\
  ((forall k,
      In k ["text"; "color"; "fontType"; "highlight"; "isSubtle"; "italic";
            "selectAction"; "strikethrough"; "underline"; "size"; "weight"] ->
      get a k = get b k) ->
   textRun conv a = textRun conv b) /\
  ((forall k, In k ["id"; "name"; "email"] -> get a k = get b k) ->
   userIcon a = userIcon b).
Proof.
  intros Ha Hb.
  unfold textBlock, image, media, mediaSource, richTextBlock, textRun,
    userIcon.
  rewrite !(bind_coercible _ _ Ha), !(bind_coercible _ _ Hb). cbv zeta.
  split; [| split; [| split; [| split; [| split; [| split]]]]];
    intros H; same_reads a H; reflexivity.
Qed.

Lemma builders_read_named_keys_witness :
  textBlock (fun s => s)
    (VObj [("text", VStr "x"); ("wrap", VUndefined); ("onClick", VStr "y")]) =
  textBlock (fun s => s) (VObj [("text", VStr "x")]) /\
  image (VNum 7%float) = image (VObj []).
Proof.
  split.
  - apply (proj1 (builders_read_named_keys (fun s => s)
                    (VObj [("text", VStr "x"); ("wrap", VUndefined);
                           ("onClick", VStr "y")])
                    (VObj [("text", VStr "x")]) eq_refl eq_refl)).
    intros k Hk. simpl in Hk.
    repeat (destruct Hk as [<- | Hk]; [reflexivity |]). contradiction.
  - apply (proj1 (proj2 (builders_read_named_keys (fun s => s)
                           (VNum 7%float) (VObj []) eq_refl eq_refl))).
    intros k _. reflexivity.
Defined.

(** ** Errors *)

Lemma array_map_throws (f : value -> result value) (items : list value) :
  (forall x, f x = Throw TypeError \/ exists y, f x = Ok y) ->
  array_map f items = Throw TypeError <->
  Exists (fun x => f x = Throw TypeError) items.
Proof.
  intros Hf. induction items as [|x items IH]; simpl.
  - split; [discriminate | intros H; inversion H].
  - destruct (Hf x) as [Hx | [y Hx]]; rewrite Hx; simpl.
    + split; [intros _; now left | reflexivity].
    + destruct (array_map f items) as [ys | e]; simpl.
      * split; [discriminate |].
        intros H. inversion H as [? ? Hh | ? ? Ht]; subst.
        -- rewrite Hx in Hh. discriminate.
        -- apply IH in Ht. discriminate.
      * destruct e. split; [| reflexivity].
        intros _. right. now apply IH.
Qed.

(** X9.  The only failure of a builder is a [TypeError], and it comes
    from the argument alone: [textBlock], [image], [media],
    [mediaSource], [richTextBlock], [textRun] and [userIcon] raise exactly
    when the argument is [undefined] or [null]; [userIconSet] raises
    exactly when its argument is no array or one of the users in it is
    [undefined] or [null]. *)
Theorem builders_raise (conv : string -> string) (arg : value) :
  (textBlock conv arg = Throw TypeError <-> missing arg) /\
  (image arg = Throw TypeError <-> missing arg) /\
  (media arg = Throw TypeError <-> missing arg) /\
  (mediaSource arg = Throw TypeError <-> missing arg) /\
  (richTextBlock arg = Throw TypeError <-> missing arg) /\
  (textRun conv arg = Throw TypeError <-> missing arg) /\
  (userIcon arg = Throw TypeError <-> missing arg) /\
  (userIconSet arg = Throw TypeError <->
   forall items, arg = VArr items -> Exists missing items).
Proof.
  unfold missing.
  repeat (split; [destruct arg; simpl;
                  (split; [intros H; try discriminate H; tauto
                          | intros [H | H]; (discriminate H || reflexivity)])
                 |]).
  destruct arg as [| | b | n | s | items | ps];
    try (split; [intros _ items' E; discriminate E | reflexivity]).
  cbn [userIconSet].
  set (f := fun user =>
              u <- coercible user ;;
              Ok (VObj [("id", get u "id");
                        ("displayName", get u "name");
                        ("userPrincipalName", get u "email")])).
  assert (Hf : forall x, f x = Throw TypeError \/ exists y, f x = Ok y).
  { intros x. unfold f.
    destruct x; simpl; ((now left) || (right; eexists; reflexivity)). }
  assert (Hm : forall x, f x = Throw TypeError <->
                         x = VUndefined \/ x = VNull).
  { intros x. unfold f. destruct x; simpl;
      (split; [intros H; try discriminate H; tauto
              | intros [H | H]; (discriminate H || reflexivity)]). }
  split.
  - intros H items' E. injection E as <-.
    assert (Em : array_map f items = Throw TypeError).
    { destruct (array_map f items) as [ys | []];
        [discriminate H | reflexivity]. }
    apply (array_map_throws f items Hf) in Em.
    eapply Exists_impl; [| exact Em]. intros x. apply Hm.
  - intros H. specialize (H items eq_refl).
    assert (Em : array_map f items = Throw TypeError).
    { apply (array_map_throws f items Hf).
      eapply Exists_impl; [| exact H]. intros x. apply Hm. }
    now rewrite Em.
Qed.

Lemma builders_raise_witness :
  userIconSet (VArr [VObj [("id", VStr "1")]; VNull]) = Throw TypeError /\
  userIcon VUndefined = Throw TypeError.
Proof.
  pose proof (builders_raise (fun s => s)
                (VArr [VObj [("id", VStr "1")]; VNull])) as H1.
  pose proof (builders_raise (fun s => s) VUndefined) as H2.
  destruct H1 as (_ & _ & _ & _ & _ & _ & _ & H1).
  destruct H2 as (_ & _ & _ & _ & _ & _ & H2 & _).
  split.
  - apply (proj2 H1). intros items E. injection E as <-.
    right. left. now right.
  - apply (proj2 H2). now left.
Defined.

(** ** One user and many *)

Lemma array_map_ext (f g : value -> result value) (items : list value) :
  (forall x, f x = g x) -> array_map f items = array_map g items.
Proof.
  intros H. induction items as [|x items IH]; [reflexivity |].
  simpl. now rewrite H, IH.
Qed.

(** X10.  [userIconSet] does for every user what [userIcon] does for one:
    the entries of [properties.users] are, in order, the [properties] of
    the icons of the users, and the set raises where the icon of one of
    them does. *)
Theorem userIconSet_maps_userIcon (items : list value) :
  userIconSet (VArr items) =
  (users <- array_map icon_properties items ;;
   Ok (VObj [("type", VStr "Component");
             ("name", VStr "graph.microsoft.com/users");
             ("view", VStr "compact");
             ("properties", VObj [("users", VArr users)])])).
Proof.
  cbn [userIconSet]. f_equal. apply array_map_ext.
  intros x. destruct x; reflexivity.
Qed.
